(** * ShopHub storefront: cart store, catalog view model and detail page

    A shallow embedding of the TypeScript sources
      - [src/types/product.ts]       (the [Product] and [CartItem] records),
      - [src/pages/Index.tsx]        ([fetchProducts], [filterProducts]),
      - [src/pages/ProductDetail.tsx] ([fetchProduct], [handleAddToCart],
                                      [incrementQuantity], [decrementQuantity]),
      - [src/components/Cart.tsx]    (the handlers of the cart drawer),
    together with the cart store of [src/contexts/CartContext.tsx], which
    is modelled from the specification (module [CartContext]).

    JavaScript numbers that hold counts (quantities, stock) are integers [Z];
    prices are binary64 numbers ([float]) and are multiplied and added as
    such; strings are [string], the UTF-8 bytes of the text; [T | null] is
    [option T]; arrays are lists. *)

From Stdlib Require Import List String Ascii Bool ZArith QArith Lia.
From Stdlib Require Import PrimFloat.
From Stdlib Require FloatOps.
Import ListNotations.

(** Decimal literals of type [float] denote the nearest binary64 value. *)
#[local] Set Warnings "-inexact-float".

Local Open Scope string_scope.
Local Open Scope list_scope.
Local Open Scope Z_scope.

(* ================================================================= *)
(** ** JavaScript built-ins used by the components *)

Module Js.

(** Truthiness of a string: only the empty string is falsy. *)
Definition truthy (s : string) : bool :=
  match s with
  | EmptyString => false
  | String _ _ => true
  end.

(** [Boolean(v)] for [v : string | null]. *)
Definition Boolean (v : option string) : bool :=
  match v with
  | None => false
  | Some s => truthy s
  end.

(** [s.startsWith(t)]. *)
Fixpoint startsWith (s t : string) {struct t} : bool :=
  match t, s with
  | EmptyString, _ => true
  | String _ _, EmptyString => false
  | String b t', String a s' => Ascii.eqb a b && startsWith s' t'
  end.

(** [s.includes(t)]: [t] occurs in [s] at some position. *)
Fixpoint includes (s t : string) : bool :=
  startsWith s t ||
  match s with
  | EmptyString => false
  | String _ s' => includes s' t
  end.

(** [String.prototype.toLowerCase] on ASCII text: the capitals A-Z
    become a-z and every other ASCII character stays.  (On other text
    [toLowerCase] does more; see [JsText.toLowerCase].) *)
Definition lower_ascii (c : ascii) : ascii :=
  let n := nat_of_ascii c in
  if (65 <=? n)%nat && (n <=? 90)%nat then ascii_of_nat (n + 32) else c.

Fixpoint toLowerCase_ascii (s : string) : string :=
  match s with
  | EmptyString => EmptyString
  | String c s' => String (lower_ascii c) (toLowerCase_ascii s')
  end.

(** [new Set(xs)]: a set that remembers insertion order; [add] of a
    value already present changes nothing. *)
Definition Set_has (s : list string) (x : string) : bool :=
  existsb (String.eqb x) s.

Definition Set_add (s : list string) (x : string) : list string :=
  if Set_has s x then s else s ++ [x].

Definition new_Set (xs : list string) : list string :=
  fold_left Set_add xs [].

(** [Array.from(set)]: the elements in insertion order. *)
Definition Array_from (s : list string) : list string := s.

(** [for (let i = i0; i < n; i++) body()], as a state transformer.
    [fuel] bounds the number of iterations; [Z.to_nat (n - i0)] is
    enough (lemma [for_lt_fuel]). *)
Fixpoint for_lt_from {S : Type} (fuel : nat) (i n : Z) (body : S -> S) (s : S) : S :=
  match fuel with
  | O => s
  | Datatypes.S fuel' =>
      if i <? n then for_lt_from fuel' (i + 1) n body (body s) else s
  end.

Definition for_lt {S : Type} (n : Z) (body : S -> S) (s : S) : S :=
  for_lt_from (Z.to_nat n) 0 n body s.

End Js.

(* ================================================================= *)
(** ** Text: letter case

    A [string] holds the UTF-8 bytes of a text.  Occurrence as a
    substring, equality and emptiness of well-formed texts are the same
    on the UTF-8 bytes as on the UTF-16 code units of a JavaScript
    string. *)

Module JsText.

(** The 256 values of a byte. *)
Definition all_chars : list ascii := map ascii_of_nat (seq 0 256).

(** Texts made of ASCII characters only. *)
Definition is_ascii_char (c : ascii) : bool := (N_of_ascii c <? 128)%N.

Fixpoint is_ascii (s : string) : bool :=
  match s with
  | EmptyString => true
  | String c s' => is_ascii_char c && is_ascii s'
  end.

(** *** Case-insensitive occurrence, character by character *)

Definition is_capital (c : ascii) : bool :=
  ((65 <=? N_of_ascii c) && (N_of_ascii c <=? 90))%N.

(** Two characters are the same letter: they are equal, or one is an
    ASCII capital and the other the corresponding small letter. *)
Definition same_letter (c d : ascii) : bool :=
  Ascii.eqb c d ||
  (is_capital c && (N_of_ascii d =? N_of_ascii c + 32)%N) ||
  (is_capital d && (N_of_ascii c =? N_of_ascii d + 32)%N).

(** Two texts of the same length with the same letters, position by
    position. *)
Fixpoint same_up_to_case (a b : string) : bool :=
  match a, b with
  | EmptyString, EmptyString => true
  | String c a', String d b' => same_letter c d && same_up_to_case a' b'
  | _, _ => false
  end.

(** [q] occurs in [s] when letter case is ignored: some part of [s] is
    [q] up to the case of its letters. *)
Definition contains_ignoring_case (s q : string) : Prop :=
  exists before mid after : string,
    s = (before ++ mid ++ after)%string /\ same_up_to_case mid q = true.

(** *** [String.prototype.toLowerCase] on Latin and Greek text

    The mapping below is that of [toLowerCase] (the default case
    conversion of Unicode, with its context-dependent rule for the
    capital sigma) on texts whose characters are in Basic Latin
    (U+0000-U+007F), in the Latin-1 Supplement (U+0080-U+00FF), or are
    Greek letters U+0391-U+03A9 and U+03B1-U+03C9.  Other characters
    are left as they are. *)

(** The characters of a text: code points below U+0800, decoded from
    one or two bytes, and the bytes of anything else. *)
Inductive Unit :=
| Cp (n : N)
| Raw (b : ascii).

Fixpoint decode (s : string) : list Unit :=
  match s with
  | EmptyString => []
  | String b rest =>
      if (N_of_ascii b <? 128)%N then Cp (N_of_ascii b) :: decode rest
      else
        match rest with
        | String b2 rest' =>
            if ((194 <=? N_of_ascii b) && (N_of_ascii b <=? 223) &&
                (128 <=? N_of_ascii b2) && (N_of_ascii b2 <=? 191))%N
            then Cp ((N_of_ascii b - 192) * 64 + (N_of_ascii b2 - 128)) :: decode rest'
            else Raw b :: decode rest
        | EmptyString => Raw b :: decode rest
        end
  end.

Definition encode_unit (u : Unit) : string :=
  match u with
  | Cp n =>
      if (n <? 128)%N then String (ascii_of_N n) EmptyString
      else String (ascii_of_N (192 + n / 64))
                  (String (ascii_of_N (128 + n mod 64)) EmptyString)
  | Raw b => String b EmptyString
  end.

Fixpoint encode (us : list Unit) : string :=
  match us with
  | [] => EmptyString
  | u :: us' => (encode_unit u ++ encode us')%string
  end.

Definition between (lo hi n : N) : bool := ((lo <=? n) && (n <=? hi))%N.

(** The characters with the Unicode property Cased. *)
Definition cased (u : Unit) : bool :=
  match u with
  | Cp n =>
      between 65 90 n || between 97 122 n ||
      (n =? 170)%N || (n =? 181)%N || (n =? 186)%N ||
      between 192 214 n || between 216 246 n || between 248 255 n ||
      between 913 929 n || between 931 937 n || between 945 969 n
  | Raw _ => false
  end.

(** The characters with the Unicode property Case_Ignorable. *)
Definition case_ignorable (u : Unit) : bool :=
  match u with
  | Cp n =>
      existsb (N.eqb n) [39; 46; 58; 94; 96; 168; 173; 175; 180; 183; 184]%N
  | Raw _ => false
  end.

(** The next character that is not case-ignorable is cased. *)
Fixpoint reaches_cased (us : list Unit) : bool :=
  match us with
  | [] => false
  | u :: us' => if case_ignorable u then reaches_cased us' else cased u
  end.

(** The condition Final_Sigma: a cased letter before (the characters
    before are given last first), none after. *)
Definition final_sigma (before_rev after : list Unit) : bool :=
  reaches_cased before_rev && negb (reaches_cased after).

(** The lower-case mapping of one character out of context. *)
Definition lower_unit (u : Unit) : Unit :=
  match u with
  | Cp n =>
      if between 65 90 n || between 192 214 n || between 216 222 n ||
         between 913 929 n || between 931 937 n
      then Cp (n + 32)
      else Cp n
  | Raw b => Raw b
  end.

(** The lower-case mapping of a character in its context: the capital
    sigma (U+03A3) becomes the final small sigma (U+03C2) under
    Final_Sigma and the small sigma (U+03C3) otherwise. *)
Definition lower_in_context (before_rev : list Unit) (u : Unit) (after : list Unit)
  : Unit :=
  match u with
  | Cp 931%N => if final_sigma before_rev after then Cp 962 else Cp 963
  | _ => lower_unit u
  end.

Fixpoint lower_units (before_rev us : list Unit) : list Unit :=
  match us with
  | [] => []
  | u :: us' => lower_in_context before_rev u us' :: lower_units (u :: before_rev) us'
  end.

Definition toLowerCase (s : string) : string :=
  encode (lower_units [] (decode s)).

End JsText.

(* ================================================================= *)
(** ** JavaScript numbers in arithmetic *)

Module JsNumber.

(** The [number] that holds a positive integer: exact below 2^53, the
    range in which a [number] holds a count. *)
Fixpoint of_positive (p : positive) : float :=
  match p with
  | xH => 1%float
  | xO q => (2 * of_positive q)%float
  | xI q => (2 * of_positive q + 1)%float
  end.

(** An integer of the model as the [number] the program computes with. *)
Definition of_Z (z : Z) : float :=
  match z with
  | Z0 => 0%float
  | Zpos p => of_positive p
  | Zneg p => (- of_positive p)%float
  end.

(** The rational a finite [number] stands for (none for NaN and the
    infinities). *)
Definition exact (x : float) : option Q :=
  match FloatOps.Prim2SF x with
  | SpecFloat.S754_zero _ => Some 0%Q
  | SpecFloat.S754_finite s m e =>
      Some ((if s then -1 else 1) * (Zpos m # 1) * Qpower 2 e)%Q
  | _ => None
  end.

End JsNumber.

(* ================================================================= *)
(** ** Data model ([src/types/product.ts]) *)

Module Types.

Record Product := mkProduct {
id : string;
name : string;
description : option string;
price : float;
image_url : option string;
category : option string;
stock : Z;
created_at : string;
updated_at : string
}.

(** [interface CartItem extends Product { quantity: number }] *)
Record CartItem := mkCartItem {
product_of :> Product;
quantity : Z
}.

(** [{ ...item, quantity: q }] *)
Definition with_quantity (item : CartItem) (q : Z) : CartItem :=
mkCartItem (product_of item) q.

End Types.

(* ================================================================= *)
(** ** Effects of the page components

    The handlers of a component update its state (the [useState] cells)
    and emit notifications, log lines and navigations.  They are written
    in a state monad that also collects the emitted events in order. *)

Module Eff.

Inductive Event :=
| ToastError (msg : string)            (* toast.error(msg)        *)
| ConsoleError (msg detail : string)   (* console.error(msg, err) *)
| Navigate (to : string).              (* navigate(to)            *)

Definition M (St A : Type) : Type := St -> A * St * list Event.

Definition ret {St A} (a : A) : M St A := fun s => (a, s, []).

Definition bind {St A B} (c : M St A) (k : A -> M St B) : M St B :=
  fun s =>
    let '(a, s1, e1) := c s in
    let '(b, s2, e2) := k a s1 in
    (b, s2, e1 ++ e2).

Definition modify {St} (f : St -> St) : M St unit := fun s => (tt, f s, []).

Definition emit {St} (e : Event) : M St unit := fun s => (tt, s, [e]).

Definition skip {St} : M St unit := ret tt.

(** A handler body that reads the state cells of the current render. *)
Definition read {St A} (k : St -> M St A) : M St A := fun s => k s s.

Definition state_after {St A} (c : M St A) (s : St) : St := snd (fst (c s)).
Definition events_of {St A} (c : M St A) (s : St) : list Event := snd (c s).

Definition is_navigate (e : Event) : bool :=
  match e with Navigate _ => true | _ => false end.

Definition is_toast (e : Event) : bool :=
  match e with ToastError _ => true | _ => false end.

End Eff.

Declare Scope eff_scope.
Delimit Scope eff_scope with eff.
Notation "c1 ;; c2" := (Eff.bind c1 (fun _ => c2))
  (at level 61, right associativity) : eff_scope.

(* ================================================================= *)
(** ** The remote catalog query service (the generated client SDK)

    A query resolves to [{ data, error }]; the components only look at
    these two fields. *)

Module Supabase.

Record PostgrestError := mkError { message : string }.

Record Response (T : Type) := mkResponse {
  data : option T;
  error : option PostgrestError
}.
Arguments mkResponse {T} _ _.
Arguments data {T} _.
Arguments error {T} _.

End Supabase.

(* ================================================================= *)
(** ** The cart store ([src/contexts/CartContext.tsx])

    Of the provider only the interface ([CartContextType]) and the
    callers are at hand.  The operations below are modelled from the
    specification, section 4.1. *)

Module CartContext.
Import Types.

(** The state of the store: [cart: CartItem[]], in first-add order. *)
Definition Cart := list CartItem.

(** Created empty at application start. *)
Definition initial : Cart := [].

Definition has_id (productId : string) (item : CartItem) : bool :=
  String.eqb (id item) productId.

(** Modelled from the spec: [addToCart] of CartContext.tsx (absent).
    "If a line item with [product.id] exists, increment its quantity by
    1; otherwise insert a new line item with quantity = 1 at the end of
    the ordered collection."  The increment is applied to every line
    item carrying the id; the store keeps at most one. *)
Definition addToCart (product : Product) (cart : Cart) : Cart :=
  if existsb (has_id (id product)) cart
  then map (fun item =>
              if has_id (id product) item
              then with_quantity item (quantity item + 1)
              else item) cart
  else cart ++ [mkCartItem product 1].

(** Modelled from the spec: [removeFromCart] of CartContext.tsx (absent).
    "Removes the line item with that id, if present; no-op and no error
    if absent." *)
Definition removeFromCart (productId : string) (cart : Cart) : Cart :=
  filter (fun item => negb (has_id productId item)) cart.

(** Modelled from the spec: [updateQuantity] of CartContext.tsx (absent).
    "If [newQuantity <= 0], behaves as [removeFromCart]; otherwise sets
    the line item's quantity to [newQuantity] (no upper bound enforced
    against [Product.stock]).  No-op if [productId] absent." *)
Definition updateQuantity (productId : string) (newQuantity : Z) (cart : Cart) : Cart :=
  if newQuantity <=? 0
  then removeFromCart productId cart
  else map (fun item =>
              if has_id productId item
              then with_quantity item newQuantity
              else item) cart.

(** Modelled from the spec: [clearCart] of CartContext.tsx (absent).
    "Empties the collection unconditionally." *)
Definition clearCart (cart : Cart) : Cart := [].

(** Modelled from the spec: [getCartTotal] of CartContext.tsx (absent).
    "Returns the sum over all line items of [price * quantity], computed
    fresh on each call": a left-to-right reduction of the current cart,
    starting from 0, in the arithmetic of [number]. *)
Definition getCartTotal (cart : Cart) : float :=
  fold_left (fun total (item : CartItem) =>
               (total + price item * JsNumber.of_Z (quantity item))%float)
            cart 0%float.

(** Modelled from the spec: [getCartCount] of CartContext.tsx (absent).
    "Returns the sum of [quantity] across all line items." *)
Definition getCartCount (cart : Cart) : Z :=
  fold_left (fun count item => count + quantity item) cart 0.

(** The mutation surface of the store, and sequences of mutations
    applied in issuance order. *)
Inductive Op :=
| AddToCart (product : Product)
| RemoveFromCart (productId : string)
| UpdateQuantity (productId : string) (newQuantity : Z)
| ClearCart.

Definition apply (op : Op) (cart : Cart) : Cart :=
  match op with
  | AddToCart product => addToCart product cart
  | RemoveFromCart productId => removeFromCart productId cart
  | UpdateQuantity productId newQuantity => updateQuantity productId newQuantity cart
  | ClearCart => clearCart cart
  end.

Definition run (ops : list Op) (cart : Cart) : Cart :=
  fold_left (fun c op => apply op c) ops cart.

(** *** Vocabulary of the specification *)

(** The line items of a cart that carry a given product id. *)
Definition lineItemsFor (productId : string) (cart : Cart) : list CartItem :=
  filter (has_id productId) cart.

(** "Cart count for that id". *)
Definition countFor (productId : string) (cart : Cart) : Z :=
  fold_right (fun item acc => quantity item + acc) 0 (lineItemsFor productId cart).

(** No line item of the cart carries the id. *)
Definition absent (productId : string) (cart : Cart) : Prop :=
  forall item, In item cart -> id item <> productId.

(** The invariant of the data model: at most one line item per product
    id, and every quantity is at least 1. *)
Definition WellFormed (cart : Cart) : Prop :=
  NoDup (map (fun item : CartItem => id item) cart) /\
  Forall (fun item => 1 <= quantity item) cart.



(** The cart of the worked example of the specification; only the
    price and the quantity matter. *)
Definition example_product (i : string) (p : float) : Product :=
  mkProduct i i None p None None 10 "" "".

Definition example_cart : Cart :=
  [ mkCartItem (example_product "a" 199.99%float) 2;
    mkCartItem (example_product "b" 49.99%float) 1 ].

End CartContext.

(* ================================================================= *)
(** ** The cart drawer ([src/components/Cart.tsx])

    The click handlers of one rendered line item, and the amounts the
    drawer shows. *)

Module CartDrawer.
Import Types CartContext.

(** [onClick={() => removeFromCart(item.id)}] *)
Definition onRemoveClick (item : CartItem) : Cart -> Cart :=
  removeFromCart (id item).

(** [onClick={() => updateQuantity(item.id, item.quantity - 1)}] *)
Definition onMinusClick (item : CartItem) : Cart -> Cart :=
  updateQuantity (id item) (quantity item - 1).

(** [onClick={() => updateQuantity(item.id, item.quantity + 1)}] *)
Definition onPlusClick (item : CartItem) : Cart -> Cart :=
  updateQuantity (id item) (quantity item + 1).


End CartDrawer.

(* ================================================================= *)
(** ** The catalog page ([src/pages/Index.tsx]) *)

Module Index.
Import Types Eff Supabase.
Local Open Scope eff_scope.

(** The [useState] cells of the component. *)
Record State := mkState {
  products : list Product;
  filteredProducts : list Product;
  loading : bool;
  searchQuery : string;
  selectedCategory : string;
  categories : list string
}.

Definition initial : State := mkState [] [] true "" "all" [].

Definition setProducts (v : list Product) : M State unit :=
  modify (fun s => mkState v (filteredProducts s) (loading s)
                           (searchQuery s) (selectedCategory s) (categories s)).
Definition setFilteredProducts (v : list Product) : M State unit :=
  modify (fun s => mkState (products s) v (loading s)
                           (searchQuery s) (selectedCategory s) (categories s)).
Definition setLoading (v : bool) : M State unit :=
  modify (fun s => mkState (products s) (filteredProducts s) v
                           (searchQuery s) (selectedCategory s) (categories s)).
Definition setSearchQuery (v : string) : M State unit :=
  modify (fun s => mkState (products s) (filteredProducts s) (loading s)
                           v (selectedCategory s) (categories s)).
Definition setSelectedCategory (v : string) : M State unit :=
  modify (fun s => mkState (products s) (filteredProducts s) (loading s)
                           (searchQuery s) v (categories s)).
Definition setCategories (v : list string) : M State unit :=
  modify (fun s => mkState (products s) (filteredProducts s) (loading s)
                           (searchQuery s) (selectedCategory s) v).

(** [xs.filter(Boolean) as string[]]: the truthy entries, as strings. *)
Fixpoint filter_Boolean (xs : list (option string)) : list string :=
  match xs with
  | [] => []
  | v :: xs' =>
      if Js.Boolean v
      then match v with
           | Some c => c :: filter_Boolean xs'
           | None => filter_Boolean xs'
           end
      else filter_Boolean xs'
  end.

(** [Array.from(new Set(data?.map((p) => p.category).filter(Boolean)))];
    with [data] null the argument of [new Set] is undefined and the set
    is empty. *)
Definition uniqueCategories (data : option (list Product)) : list string :=
  Js.Array_from
    (Js.new_Set
       match data with
       | Some d => filter_Boolean (map category d)
       | None => []
       end).

(** [fetchProducts], up to the [await] of the query ... *)
Definition fetchProducts_begin : M State unit :=
  setLoading true.

(** ... and from the point where the query has resolved to [r]. *)
Definition fetchProducts_resume (r : Response (list Product)) : M State unit :=
  match error r with
  | Some e =>
      emit (ToastError "Failed to load products") ;;
      emit (ConsoleError "Error fetching products:" (message e))
  | None =>
      setProducts (match data r with Some d => d | None => [] end) ;;
      setCategories (uniqueCategories (data r))
  end ;;
  setLoading false.

Definition fetchProducts (r : Response (list Product)) : M State unit :=
  fetchProducts_begin ;; fetchProducts_resume r.

Section Filter.
(** [String.prototype.toLowerCase]. *)
Variable toLowerCase : string -> string.

(** The callback of the search filter. *)
Definition matchesSearch (searchQuery : string) (product : Product) : bool :=
  Js.includes (toLowerCase (name product)) (toLowerCase searchQuery) ||
  match description product with
  | Some d => Js.includes (toLowerCase d) (toLowerCase searchQuery)
  | None => false
  end.

(** The callback of the category filter:
    [product.category === selectedCategory]. *)
Definition matchesCategory (selectedCategory : string) (product : Product) : bool :=
  match category product with
  | Some c => String.eqb c selectedCategory
  | None => false
  end.

Definition filterProducts : M State unit :=
  read (fun s =>
    let filtered := products s in   (* [...products] *)
    let filtered :=
      if Js.truthy (searchQuery s)
      then filter (matchesSearch (searchQuery s)) filtered
      else filtered in
    let filtered :=
      if negb (String.eqb (selectedCategory s) "all")
      then filter (matchesCategory (selectedCategory s)) filtered
      else filtered in
    setFilteredProducts filtered).

(** The two filters of [filterProducts], taken as one test. *)
Definition keeps (q sel : string) (p : Product) : bool :=
  (if Js.truthy q then matchesSearch q p else true) &&
  (if negb (String.eqb sel "all") then matchesCategory sel p else true).

(** *** Vocabulary of the specification *)

(** The lower-cased [q] occurs in the lower-cased [s] as a substring. *)
Definition contains_lowered (s q : string) : Prop :=
  exists before after : string,
    toLowerCase s = (before ++ toLowerCase q ++ after)%string.

(** The condition a product must meet for a search text and a
    selected category, on lower-cased texts. *)
Definition passes (searchText selected : string) (p : Product) : Prop :=
  (searchText <> "" ->
     contains_lowered (name p) searchText \/
     exists d, description p = Some d /\ contains_lowered d searchText) /\
  (selected <> "all" -> category p = Some selected).
End Filter.

(** The condition as the specification words it: the name or the
    description contains the search text as a case-insensitive
    substring, and the category is the selected one. *)
Definition passes_ignoring_case (searchText selected : string) (p : Product) : Prop :=
  (searchText <> "" ->
     JsText.contains_ignoring_case (name p) searchText \/
     exists d, description p = Some d /\
               JsText.contains_ignoring_case d searchText) /\
  (selected <> "all" -> category p = Some selected).

(** A product whose name and description are ASCII texts. *)
Definition ascii_text (p : Product) : Prop :=
  JsText.is_ascii (name p) = true /\
  (forall d, description p = Some d -> JsText.is_ascii d = true).

(** [out] is the order-preserving subsequence of [l] made of exactly
    the members of [l] that satisfy [P]. *)
Inductive Selects {A : Type} (P : A -> Prop) : list A -> list A -> Prop :=
| Selects_nil : Selects P [] []
| Selects_keep x l out : P x -> Selects P l out -> Selects P (x :: l) (x :: out)
| Selects_drop x l out : ~ P x -> Selects P l out -> Selects P (x :: l) out.

(** [handleClearFilters] *)
Definition handleClearFilters : M State unit :=
  setSearchQuery "" ;; setSelectedCategory "all".

(** The two products of the filtering example of the specification. *)
Definition running_shoes : Product :=
  mkProduct "p1" "Running Shoes" None 129.99%float None (Some "Footwear") 40 "" "".
Definition yoga_mat : Product :=
  mkProduct "p2" "Yoga Mat" None 49.99%float None (Some "Sports") 50 "" "".

(** A product with a Greek name ("street", in capitals). *)
Definition odos : Product :=
  mkProduct "p8" "ΟΔΟΣ" None 12.5%float None (Some "Maps") 3 "" "".

End Index.

(* ================================================================= *)
(** ** The product detail page ([src/pages/ProductDetail.tsx]) *)

Module ProductDetail.
Import Eff Supabase.
Import Types (Product, stock).
Local Open Scope eff_scope.

(** The [useState] cells of the component. *)
Record State := mkState {
  product : option Product;
  loading : bool;
  quantity : Z
}.

(** [useState(null)], [useState(true)], [useState(1)]. *)
Definition initial : State := mkState None true 1.

Definition setProduct (v : option Product) (s : State) : State :=
  mkState v (loading s) (quantity s).
Definition setLoading (v : bool) (s : State) : State :=
  mkState (product s) v (quantity s).
Definition setQuantity (v : Z) (s : State) : State :=
  mkState (product s) (loading s) v.

(** [fetchProduct] from the point where the single-row query has
    resolved to [r]. *)
Definition fetchProduct_resume (r : Response Product) : M State unit :=
  match error r with
  | Some e =>
      emit (ToastError "Failed to load product") ;;
      emit (ConsoleError "Error fetching product:" (message e))
  | None =>
      match data r with
      | Some d => modify (setProduct (Some d))
      | None =>
          emit (ToastError "Product not found") ;;
          emit (Navigate "/")
      end
  end ;;
  modify (setLoading false).

(** [fetchProduct]: [id] is the route parameter, [query] the remote
    lookup [.eq("id", id).maybeSingle()]. *)
Definition fetchProduct (id : option string) (query : string -> Response Product)
  : M State unit :=
  match id with
  | Some i =>
      if Js.truthy i
      then modify (setLoading true) ;; fetchProduct_resume (query i)
      else skip
  | None => skip
  end.

Section AddToCart.
(** The store behind [useCart()] and its [addToCart]. *)
Variable Store : Type.
Variable addToCart : Product -> Store -> Store.

Definition handleAddToCart (s : State) (store : Store) : Store :=
  match product s with
  | None => store
  | Some p => Js.for_lt (quantity s) (addToCart p) store
  end.
End AddToCart.

Definition incrementQuantity (s : State) : State :=
  match product s with
  | Some p => if quantity s <? stock p then setQuantity (quantity s + 1) s else s
  | None => s
  end.

Definition decrementQuantity (s : State) : State :=
  if quantity s >? 1 then setQuantity (quantity s - 1) s else s.

(** What the component renders. *)
Inductive View :=
| LoadingView
| NotFoundView
| DetailView (p : Product) (quantity : Z).

Definition render (s : State) : View :=
  if loading s then LoadingView
  else match product s with
       | None => NotFoundView
       | Some p => DetailView p (quantity s)
       end.

(** The [disabled] attributes of the two quantity buttons. *)
Definition decrementDisabled (s : State) : bool := quantity s <=? 1.
Definition incrementDisabled (p : Product) (s : State) : bool := quantity s >=? stock p.

(** The clicks on the quantity control. *)
Inductive Click := Increment | Decrement.

Definition click (c : Click) (s : State) : State :=
  match c with
  | Increment => incrementQuantity s
  | Decrement => decrementQuantity s
  end.

Definition clicks (cs : list Click) (s : State) : State :=
  fold_left (fun st c => click c st) cs s.

(** The page once the lookup of [p] has succeeded, before any click. *)
Definition loaded (p : Product) : State :=
  state_after (fetchProduct_resume (mkResponse (Some p) None)) initial.

End ProductDetail.

(* ================================================================= *)
(** ** Markup shared by the components *)

Module Markup.

(** [v || fallback] for [v : string | null]: the fallback replaces null
    and the empty string. *)
Definition or_else (v : option string) (fallback : string) : string :=
  match v with
  | Some s => if Js.truthy s then s else fallback
  | None => fallback
  end.

(** [src={x.image_url || "/placeholder.svg"}] *)
Definition imageSrc (image_url : option string) : string :=
  or_else image_url "/placeholder.svg".

(** [stock > 0 ? `${stock}<wording>` : "Out of stock"]: the stock line
    of a page; the number is kept as it is in place of its decimal text,
    followed by the wording of the page. *)
Inductive StockLabel :=
| InStock (n : Z) (wording : string)
| OutOfStock.

Definition stockLabel (wording : string) (stock : Z) : StockLabel :=
  if stock >? 0 then InStock stock wording else OutOfStock.

End Markup.

(* ================================================================= *)
(** ** What the catalog page renders ([src/pages/Index.tsx]) *)

Module IndexView.
Import Types Index.

(** [(searchQuery || selectedCategory !== "all") && <Button>Clear
    Filters</Button>] *)
Definition showsClearFilters (s : State) : bool :=
  Js.truthy (searchQuery s) || negb (String.eqb (selectedCategory s) "all").

(** The values of the category selector: "all", then one item per
    category. *)
Definition categoryOptions (s : State) : list string :=
  "all" :: categories s.

(** [loading ? <p>Loading products...</p> : <ProductGrid
    products={filteredProducts} />] *)
Inductive ProductsSection :=
| LoadingText
| ProductGrid (shown : list Product).

Definition productsSection (s : State) : ProductsSection :=
  if loading s then LoadingText else ProductGrid (filteredProducts s).

End IndexView.

(* ================================================================= *)
(** ** The product card ([src/components/ProductCard.tsx]) *)

Module ProductCard.
Import Types Eff.
Local Open Scope eff_scope.

(** The part of a [React.MouseEvent] the handlers touch. *)
Record MouseEvent := mkMouseEvent { propagationStopped : bool }.

Definition stopPropagation (e : MouseEvent) : MouseEvent :=
  mkMouseEvent true.

Section Card.
(** The store behind [useCart()] and its [addToCart]. *)
Variable Store : Type.
Variable addToCart : Product -> Store -> Store.
(** The [product] prop. *)
Variable product : Product.

(** The handlers run on the event being dispatched and on the store. *)
Definition Ctx : Type := (MouseEvent * Store)%type.

(** [handleAddToCart = (e) => { e.stopPropagation(); addToCart(product); }] *)
Definition handleAddToCart : M Ctx unit :=
  modify (fun c : Ctx => (stopPropagation (fst c), snd c)) ;;
  modify (fun c : Ctx => (fst c, addToCart product (snd c))).

(** [handleCardClick = () => navigate(`/product/${product.id}`)] *)
Definition handleCardClick : M Ctx unit :=
  emit (Navigate ("/product/" ++ id product)%string).

(** A click bubbles from the element it hits to the enclosing [Card],
    unless a handler on the way has stopped its propagation. *)
Definition bubble (inner outer : M Ctx unit) : M Ctx unit :=
  inner ;;
  read (fun c : Ctx => if propagationStopped (fst c) then skip else outer).

(** A click that reaches the Add to Cart button (the button is not
    disabled), which sits inside the card ... *)
Definition clickAddButton : M Ctx unit :=
  bubble handleAddToCart handleCardClick.

(** ... and a click on the card outside the button. *)
Definition clickCard : M Ctx unit :=
  handleCardClick.
End Card.

(** [disabled={product.stock === 0}] *)
Definition addDisabled (product : Product) : bool := stock product =? 0.

(** The stock line of the card:
    [product.stock > 0 ? `${product.stock} in stock` : "Out of stock"]. *)
Definition stockText (product : Product) : Markup.StockLabel :=
  Markup.stockLabel " in stock" (stock product).

End ProductCard.

(* ================================================================= *)
(** ** What the detail page renders ([src/pages/ProductDetail.tsx]) *)

Module DetailView.
Import Types Eff ProductDetail.

(** The Availability paragraph:
    [product.stock > 0 ? `${product.stock} items in stock` : "Out of stock"]. *)
Definition availability (p : Product) : Markup.StockLabel :=
  Markup.stockLabel " items in stock" (stock p).

(** [product.stock > 0 && (...)]: the quantity control and the Add to
    Cart button. *)
Definition showsPurchaseControls (p : Product) : bool := stock p >? 0.

(** [product.description || "No description available"] *)
Definition descriptionText (p : Product) : string :=
  Markup.or_else (description p) "No description available".

(** The Back to Shop button: [onClick={() => navigate("/")}]. *)
Definition backToShop : M State unit := emit (Navigate "/").

End DetailView.

(* ================================================================= *)
(** ** What the cart drawer renders ([src/components/Cart.tsx])

    The drawer reads [cart], [getCartCount()] and [getCartTotal()] from
    the store of module [CartContext]. *)

Module DrawerView.
Import Types CartContext.

(** [getCartCount() > 0 && <Badge>{getCartCount()}</Badge>] *)
Definition badge (cart : Cart) : option Z :=
  if getCartCount cart >? 0 then Some (getCartCount cart) else None.

(** The sheet description: "Your cart is empty", or the count followed
    by "item" or "items". *)
Inductive Description :=
| CartIsEmpty
| ItemsInCart (count : Z) (plural : bool).

Definition description (cart : Cart) : Description :=
  if getCartCount cart =? 0
  then CartIsEmpty
  else ItemsInCart (getCartCount cart) (negb (getCartCount cart =? 1)).

(** [cart.length === 0 ? placeholder : cart.map(...)] *)
Inductive Body :=
| StartShopping
| Lines (items : list CartItem).

Definition body (cart : Cart) : Body :=
  if (List.length cart =? 0)%nat then StartShopping else Lines cart.

(** [cart.length > 0 && footer]: the total and the two buttons. *)
Definition footer (cart : Cart) : option float :=
  if (0 <? List.length cart)%nat then Some (getCartTotal cart) else None.

(** The buttons of the line rendered for product id [x]: each acts on
    the line item of the current cart, when there is one. *)
Definition pressMinus (x : string) (cart : Cart) : Cart :=
  match find (has_id x) cart with
  | Some item => CartDrawer.onMinusClick item cart
  | None => cart
  end.

Definition pressPlus (x : string) (cart : Cart) : Cart :=
  match find (has_id x) cart with
  | Some item => CartDrawer.onPlusClick item cart
  | None => cart
  end.

Definition pressRemove (x : string) (cart : Cart) : Cart :=
  match find (has_id x) cart with
  | Some item => CartDrawer.onRemoveClick item cart
  | None => cart
  end.

End DrawerView.

(* ################################################################# *)
(** * Properties *)

(* ================================================================= *)
(** ** The built-ins *)

Module JsFacts.
Import Js.

Lemma truthy_nonempty (s : string) : truthy s = true <-> s <> "".
Proof. destruct s; simpl; split; congruence. Qed.

Lemma startsWith_iff (s t : string) :
  startsWith s t = true <-> exists rest, s = (t ++ rest)%string.
Proof.
  revert s; induction t as [|b t IH]; intros s; simpl.
  - split; [intros _; now exists s | reflexivity].
  - destruct s as [|a s].
    + split; [discriminate | intros [rest H]; discriminate].
    + rewrite andb_true_iff, IH, Ascii.eqb_eq. split.
      * intros [-> [rest ->]]. now exists rest.
      * intros [rest H]. injection H as -> ->. split; [reflexivity | now exists rest].
Qed.

(** [includes] decides the occurrence of [t] as a substring of [s]. *)
Lemma includes_iff (s t : string) :
  includes s t = true <->
  exists before after, s = (before ++ t ++ after)%string.
Proof.
  induction s as [|a s IH]; simpl; rewrite orb_true_iff.
  - split.
    + intros [H | H]; [|discriminate].
      apply startsWith_iff in H as [rest H]. now exists "", rest.
    + intros [before [after H]]. left. apply startsWith_iff.
      destruct before; [now exists after | discriminate].
  - split.
    + intros [H | H].
      * apply startsWith_iff in H as [rest H]. now exists "", rest.
      * apply IH in H as [before [after ->]]. now exists (String a before), after.
    + intros [[|b before] [after H]]; simpl in H.
      * left. apply startsWith_iff. now exists after.
      * right. apply IH. injection H as _ ->. now exists before, after.
Qed.

Lemma Set_has_iff (s : list string) (x : string) :
  Set_has s x = true <-> In x s.
Proof.
  unfold Set_has. rewrite existsb_exists. split.
  - intros [y [Hin Heq]]. apply String.eqb_eq in Heq. now subst.
  - intros Hin. exists x. split; [assumption | apply String.eqb_refl].
Qed.

Lemma Set_add_In (s : list string) (x y : string) :
  In y (Set_add s x) <-> In y s \/ y = x.
Proof.
  unfold Set_add. destruct (Set_has s x) eqn:E.
  - apply Set_has_iff in E. split; [now left | intros [H | ->]; assumption].
  - rewrite in_app_iff. simpl. intuition congruence.
Qed.

Lemma Set_add_NoDup (s : list string) (x : string) :
  NoDup s -> NoDup (Set_add s x).
Proof.
  intros Hs. unfold Set_add. destruct (Set_has s x) eqn:E; [assumption|].
  assert (Hx : ~ In x s).
  { intros Hin. apply Set_has_iff in Hin. congruence. }
  clear E. induction Hs as [|a s Ha Hs IH]; simpl.
  - constructor; [intros [] | constructor].
  - constructor.
    + rewrite in_app_iff. simpl. intros [H | [H | []]]; [contradiction|].
      apply Hx. now left.
    + apply IH. intros H. apply Hx. now right.
Qed.

Lemma fold_Set_add (xs acc : list string) :
  NoDup acc ->
  NoDup (fold_left Set_add xs acc) /\
  (forall y, In y (fold_left Set_add xs acc) <-> In y acc \/ In y xs).
Proof.
  revert acc; induction xs as [|x xs IH]; intros acc Hacc; simpl.
  - split; [assumption | intuition].
  - destruct (IH (Set_add acc x) (Set_add_NoDup acc x Hacc)) as [Hnd Hin].
    split; [assumption|]. intros y. rewrite Hin, Set_add_In. intuition.
Qed.

(** A set built from an array holds each value of the array once. *)
Lemma new_Set_spec (xs : list string) :
  NoDup (new_Set xs) /\ (forall y, In y (new_Set xs) <-> In y xs).
Proof.
  destruct (fold_Set_add xs [] (NoDup_nil _)) as [Hnd Hin].
  split; [exact Hnd|]. intros y. unfold new_Set. rewrite Hin. simpl. intuition.
Qed.

(** The loop runs its body once per value of [i] below [n]; fuel
    beyond that is not used. *)
Lemma for_lt_fuel {S : Type} (body : S -> S) (n : Z) :
  forall (fuel : nat) (i : Z) (s : S),
    (Z.to_nat (n - i) <= fuel)%nat ->
    for_lt_from fuel i n body s = Nat.iter (Z.to_nat (n - i)) (fun x => body x) s.
Proof.
  induction fuel as [|fuel IH]; intros i s Hfuel; simpl.
  - replace (Z.to_nat (n - i)) with O by lia. reflexivity.
  - destruct (Z.ltb_spec i n) as [Hlt | Hge].
    + rewrite IH by lia.
      replace (Z.to_nat (n - i)) with (Datatypes.S (Z.to_nat (n - (i + 1)))) by lia.
      now rewrite Nat.iter_succ_r.
    + replace (Z.to_nat (n - i)) with O by lia. reflexivity.
Qed.

Lemma for_lt_iter {S : Type} (body : S -> S) (n : Z) (s : S) :
  for_lt n body s = Nat.iter (Z.to_nat n) (fun x => body x) s.
Proof.
  unfold for_lt. rewrite for_lt_fuel by lia. now rewrite Z.sub_0_r.
Qed.

End JsFacts.

(* ================================================================= *)
(** ** Letter case *)

Module TextFacts.
Import Js JsText.

Lemma string_app_assoc (a b c : string) :
  ((a ++ b) ++ c)%string = (a ++ b ++ c)%string.
Proof. induction a as [|x a IH]; simpl; [reflexivity | now rewrite IH]. Qed.

Lemma string_app_nonempty (a q b : string) :
  q <> "" -> (a ++ q ++ b)%string <> "".
Proof.
  intros Hq. destruct a; simpl; [|discriminate].
  destruct q; simpl; [congruence | discriminate].
Qed.

Lemma toLowerCase_ascii_app (a b : string) :
  toLowerCase_ascii (a ++ b) =
  (toLowerCase_ascii a ++ toLowerCase_ascii b)%string.
Proof. induction a as [|x a IH]; simpl; [reflexivity | now rewrite IH]. Qed.

Lemma is_ascii_app (a b : string) :
  is_ascii (a ++ b) = is_ascii a && is_ascii b.
Proof.
  induction a as [|x a IH]; simpl; [reflexivity|].
  now rewrite IH, andb_assoc.
Qed.

Lemma all_chars_complete (c : ascii) : In c all_chars.
Proof.
  unfold all_chars. rewrite <- (ascii_nat_embedding c).
  apply in_map, in_seq. pose proof (nat_ascii_bounded c). lia.
Qed.

(** A property checked on the 256 characters holds of every character. *)
Lemma for_all_chars (f : ascii -> bool) :
  forallb f all_chars = true -> forall c, f c = true.
Proof.
  intros H c. rewrite forallb_forall in H. apply H, all_chars_complete.
Qed.

(** Two characters are the same letter exactly when the ASCII mapping
    sends them to the same character. *)
Lemma same_letter_lower (c d : ascii) :
  same_letter c d = Ascii.eqb (lower_ascii c) (lower_ascii d).
Proof.
  pose proof (for_all_chars
    (fun c => forallb
       (fun d => Bool.eqb (same_letter c d)
                          (Ascii.eqb (lower_ascii c) (lower_ascii d)))
       all_chars)) as H.
  assert (Hall : forallb
            (fun c => forallb
               (fun d => Bool.eqb (same_letter c d)
                                  (Ascii.eqb (lower_ascii c) (lower_ascii d)))
               all_chars) all_chars = true) by (vm_compute; reflexivity).
  specialize (H Hall c). rewrite forallb_forall in H.
  apply Bool.eqb_prop, H, all_chars_complete.
Qed.

Lemma same_up_to_case_lower (a b : string) :
  same_up_to_case a b = true <-> toLowerCase_ascii a = toLowerCase_ascii b.
Proof.
  revert b. induction a as [|c a IH]; intros [|d b]; simpl;
    try (split; [discriminate | discriminate]); [tauto|].
  rewrite andb_true_iff, IH, same_letter_lower, Ascii.eqb_eq. split.
  - intros [-> ->]. reflexivity.
  - intros H. injection H as H1 H2. now split.
Qed.

(** A text that is an ASCII text up to letter case is an ASCII text. *)
Lemma same_letter_is_ascii (c d : ascii) :
  lower_ascii c = lower_ascii d -> is_ascii_char d = true -> is_ascii_char c = true.
Proof.
  assert (Hall : forallb
            (fun c => forallb
               (fun d => implb (Ascii.eqb (lower_ascii c) (lower_ascii d) &&
                                is_ascii_char d)
                               (is_ascii_char c))
               all_chars) all_chars = true) by (vm_compute; reflexivity).
  pose proof (for_all_chars _ Hall c) as H. rewrite forallb_forall in H.
  specialize (H d (all_chars_complete d)).
  intros Heq Hd. apply Ascii.eqb_eq in Heq. rewrite Heq, Hd in H. exact H.
Qed.

Lemma same_case_is_ascii (a b : string) :
  toLowerCase_ascii a = toLowerCase_ascii b ->
  is_ascii b = true -> is_ascii a = true.
Proof.
  revert b. induction a as [|c a IH]; intros [|d b] H Hb;
    try discriminate; [reflexivity|].
  simpl in H. injection H as Hc Ha. simpl in Hb.
  apply andb_true_iff in Hb as [Hd Hb]. simpl.
  now rewrite (same_letter_is_ascii c d Hc Hd), (IH b Ha Hb).
Qed.

(** A split of the lower-cased text comes from a split of the text. *)
Lemma toLowerCase_ascii_split (s u v : string) :
  toLowerCase_ascii s = (u ++ v)%string ->
  exists s1 s2,
    s = (s1 ++ s2)%string /\
    toLowerCase_ascii s1 = u /\ toLowerCase_ascii s2 = v.
Proof.
  revert s. induction u as [|x u IH]; intros s H.
  - exists "", s. now repeat split.
  - destruct s as [|c s]; [discriminate|].
    simpl in H. injection H as Hc H.
    destruct (IH s H) as [s1 [s2 [-> [H1 H2]]]].
    exists (String c s1), s2. simpl. now rewrite Hc, H1.
Qed.

(** On ASCII characters [JsText.toLowerCase] is the ASCII mapping. *)
Lemma lower_in_context_ascii (b : ascii) (before_rev after : list Unit) :
  is_ascii_char b = true ->
  encode_unit (lower_in_context before_rev (Cp (N_of_ascii b)) after) =
  String (lower_ascii b) EmptyString.
Proof.
  destruct b as [[] [] [] [] [] [] [] []]; intros H;
    first [discriminate H | reflexivity].
Qed.

Lemma decode_ascii_char (b : ascii) (rest : string) :
  is_ascii_char b = true ->
  decode (String b rest) = Cp (N_of_ascii b) :: decode rest.
Proof. unfold is_ascii_char. intros H. simpl. now rewrite H. Qed.

Lemma toLowerCase_on_ascii (s : string) :
  is_ascii s = true -> JsText.toLowerCase s = toLowerCase_ascii s.
Proof.
  unfold JsText.toLowerCase. generalize (@nil Unit) as before_rev.
  induction s as [|b s IH]; intros before_rev H; [reflexivity|].
  simpl in H. apply andb_true_iff in H as [Hb Hs].
  rewrite decode_ascii_char by exact Hb.
  cbn [lower_units encode toLowerCase_ascii].
  rewrite lower_in_context_ascii by exact Hb.
  simpl. now rewrite IH.
Qed.

Section OnAscii.
(** [String.prototype.toLowerCase], of which only its values on ASCII
    text are assumed. *)
Variable toLowerCase : string -> string.
Hypothesis toLowerCase_on_ascii_text :
  forall s, is_ascii s = true -> toLowerCase s = toLowerCase_ascii s.

(** On ASCII texts, occurrence of the lower-cased search text in the
    lower-cased text is case-insensitive occurrence. *)
Lemma contains_lowered_ignoring_case (s q : string) :
  is_ascii s = true -> is_ascii q = true ->
  (Index.contains_lowered toLowerCase s q <-> contains_ignoring_case s q).
Proof.
  intros Hs Hq. unfold Index.contains_lowered, contains_ignoring_case.
  rewrite (toLowerCase_on_ascii_text s Hs), (toLowerCase_on_ascii_text q Hq).
  split.
  - intros [before [after H]].
    destruct (toLowerCase_ascii_split _ _ _ H) as [s1 [rest [-> [H1 H2]]]].
    destruct (toLowerCase_ascii_split _ _ _ H2) as [mid [s2 [-> [Hm H3]]]].
    exists s1, mid, s2. split; [reflexivity|].
    now apply same_up_to_case_lower.
  - intros [before [mid [after [-> H]]]].
    apply same_up_to_case_lower in H.
    exists (toLowerCase_ascii before), (toLowerCase_ascii after).
    now rewrite !toLowerCase_ascii_app, H.
Qed.
End OnAscii.

End TextFacts.

(* ================================================================= *)
(** ** The cart store *)

Module CartFacts.
Import Types CartContext.

Lemma has_id_true (x : string) (item : CartItem) :
  has_id x item = true <-> id item = x.
Proof. unfold has_id. apply String.eqb_eq. Qed.

Lemma has_id_false (x : string) (item : CartItem) :
  has_id x item = false <-> id item <> x.
Proof. unfold has_id. apply String.eqb_neq. Qed.

Lemma absent_nil (x : string) : absent x [].
Proof. intros item []. Qed.

Lemma absent_cons (x : string) (item : CartItem) (l : Cart) :
  absent x (item :: l) <-> id item <> x /\ absent x l.
Proof.
  unfold absent; simpl; split.
  - intros H; split; [apply H; now left | intros i Hi; apply H; now right].
  - intros [H1 H2] i [<- | Hi]; auto.
Qed.

Lemma absent_app (x : string) (l1 l2 : Cart) :
  absent x (l1 ++ l2) <-> absent x l1 /\ absent x l2.
Proof.
  unfold absent; split.
  - intros H; split; intros i Hi; apply H, in_or_app; auto.
  - intros [H1 H2] i Hi. apply in_app_or in Hi as [Hi | Hi]; auto.
Qed.

Lemma absent_ids (x : string) (l : Cart) :
  absent x l <-> ~ In x (map (fun item : CartItem => id item) l).
Proof.
  unfold absent. rewrite in_map_iff. split.
  - intros H [item [Hid Hin]]. exact (H item Hin Hid).
  - intros H item Hin Hid. apply H. now exists item.
Qed.

Lemma existsb_absent (x : string) (l : Cart) :
  existsb (has_id x) l = false <-> absent x l.
Proof.
  induction l as [|item l IH]; simpl.
  - split; [intros _; apply absent_nil | reflexivity].
  - rewrite orb_false_iff, IH, absent_cons, has_id_false. reflexivity.
Qed.

(** Rewriting the line items of an id the cart does not hold changes
    nothing. *)
Lemma map_absent (x : string) (f : CartItem -> CartItem) (l : Cart) :
  absent x l ->
  map (fun item => if has_id x item then f item else item) l = l.
Proof.
  induction l as [|item l IH]; intros H; simpl; [reflexivity|].
  apply absent_cons in H as [Hi Hl].
  apply has_id_false in Hi. rewrite Hi, IH by assumption. reflexivity.
Qed.

Lemma filter_absent (x : string) (l : Cart) :
  absent x l -> filter (fun item => negb (has_id x item)) l = l.
Proof.
  induction l as [|item l IH]; intros H; simpl; [reflexivity|].
  apply absent_cons in H as [Hi Hl].
  apply has_id_false in Hi. rewrite Hi, IH by assumption. reflexivity.
Qed.

Lemma lineItemsFor_absent (x : string) (l : Cart) :
  absent x l -> lineItemsFor x l = [].
Proof.
  unfold lineItemsFor.
  induction l as [|item l IH]; intros H; simpl; [reflexivity|].
  apply absent_cons in H as [Hi Hl].
  apply has_id_false in Hi. rewrite Hi. auto.
Qed.

Lemma lineItemsFor_unique (x : string) (l1 l2 : Cart) (item : CartItem) :
  id item = x -> absent x l1 -> absent x l2 ->
  lineItemsFor x (l1 ++ item :: l2) = [item].
Proof.
  intros Hid H1 H2. unfold lineItemsFor. rewrite filter_app. simpl.
  apply has_id_true in Hid. rewrite Hid.
  fold (lineItemsFor x l1). fold (lineItemsFor x l2).
  now rewrite !lineItemsFor_absent.
Qed.

(** In a cart with at most one line item per id, a line item splits
    the cart into two parts that do not hold its id. *)
Lemma NoDup_split (l1 l2 : Cart) (item : CartItem) :
  NoDup (map (fun i : CartItem => id i) (l1 ++ item :: l2)) ->
  absent (id item) l1 /\ absent (id item) l2.
Proof.
  rewrite map_app. simpl. intros H.
  pose proof (NoDup_remove_2 _ _ _ H) as Hnot.
  rewrite in_app_iff in Hnot.
  split; apply absent_ids; intros Hin; apply Hnot; auto.
Qed.

Lemma with_quantity_twice (item : CartItem) (a b : Z) :
  with_quantity (with_quantity item a) b = with_quantity item b.
Proof. reflexivity. Qed.

Lemma with_quantity_same (item : CartItem) :
  with_quantity item (quantity item) = item.
Proof. now destruct item. Qed.

(** *** [addToCart] *)

Lemma addToCart_new (p : Product) (cart : Cart) :
  absent (id p) cart -> addToCart p cart = cart ++ [mkCartItem p 1].
Proof.
  intros H. unfold addToCart.
  apply existsb_absent in H. now rewrite H.
Qed.

Lemma addToCart_existing (p : Product) (l1 l2 : Cart) (item : CartItem) :
  id item = id p -> absent (id p) l1 -> absent (id p) l2 ->
  addToCart p (l1 ++ item :: l2) =
  l1 ++ with_quantity item (quantity item + 1) :: l2.
Proof.
  intros Hid H1 H2. unfold addToCart.
  assert (E : existsb (has_id (id p)) (l1 ++ item :: l2) = true).
  { apply existsb_exists. exists item. split.
    - apply in_or_app. right. now left.
    - now apply has_id_true. }
  rewrite E, map_app. simpl.
  apply has_id_true in Hid. rewrite Hid.
  now rewrite !map_absent.
Qed.

(** Further additions of an id whose line item is the last one. *)
Lemma adds_to_last (x : string) (ps : list Product) :
  Forall (fun q => id q = x) ps ->
  forall (cart : Cart) (item : CartItem),
    id item = x -> absent x cart ->
    fold_left (fun c q => addToCart q c) ps (cart ++ [item]) =
    cart ++ [with_quantity item (quantity item + Z.of_nat (List.length ps))].
Proof.
  induction 1 as [|p ps Hp Hps IH]; intros cart item Hid Habs; simpl fold_left.
  - simpl List.length. rewrite Z.add_0_r, with_quantity_same. reflexivity.
  - rewrite addToCart_existing.
    + rewrite IH by assumption. rewrite with_quantity_twice.
      do 3 f_equal. cbn [quantity with_quantity List.length]. lia.
    + congruence.
    + now rewrite Hp.
    + rewrite Hp. apply absent_nil.
Qed.

(** [n] additions of one id to a cart without it leave one line item
    for it, the last of the cart, with quantity [n]. *)
Lemma adds_of_one_id (x : string) (p : Product) (ps : list Product) (cart : Cart) :
  absent x cart -> Forall (fun q => id q = x) (p :: ps) ->
  fold_left (fun c q => addToCart q c) (p :: ps) cart =
  cart ++ [mkCartItem p (Z.of_nat (List.length (p :: ps)))].
Proof.
  intros Habs Hall. inversion Hall as [|? ? Hp Hps]; subst.
  simpl fold_left. rewrite addToCart_new by assumption.
  rewrite (adds_to_last (id p)) by (assumption || reflexivity).
  unfold with_quantity. cbn [quantity product_of List.length].
  do 3 f_equal. lia.
Qed.

(** *** The invariant *)

Lemma ids_map_if (x : string) (f : CartItem -> CartItem) (l : Cart) :
  (forall item, id (f item) = id item) ->
  map (fun i : CartItem => id i)
      (map (fun item => if has_id x item then f item else item) l) =
  map (fun i : CartItem => id i) l.
Proof.
  intros Hf. rewrite map_map. apply map_ext. intros item.
  destruct (has_id x item); [apply Hf | reflexivity].
Qed.

Lemma NoDup_ids_filter (f : CartItem -> bool) (l : Cart) :
  NoDup (map (fun i : CartItem => id i) l) ->
  NoDup (map (fun i : CartItem => id i) (filter f l)).
Proof.
  induction l as [|item l IH]; simpl; intros H; [constructor|].
  inversion H as [|? ? Hnot Hrest]; subst.
  destruct (f item); simpl; [constructor|]; auto.
  intros Hin. apply Hnot. apply in_map_iff in Hin as [i [Hi Hin]].
  apply filter_In in Hin as [Hin _]. apply in_map_iff. now exists i.
Qed.

Lemma addToCart_WellFormed (p : Product) (cart : Cart) :
  WellFormed cart -> WellFormed (addToCart p cart).
Proof.
  intros [Hnd Hq]. unfold addToCart.
  destruct (existsb (has_id (id p)) cart) eqn:E.
  - split.
    + rewrite ids_map_if; [assumption | reflexivity].
    + apply Forall_map. eapply Forall_impl; [|exact Hq].
      intros item Hi. simpl in Hi. destruct (has_id (id p) item); simpl; lia.
  - apply existsb_absent in E. split.
    + rewrite map_app. simpl. apply absent_ids in E.
      apply NoDup_rev in Hnd.
      rewrite <- (rev_involutive (map _ cart ++ [id p])).
      apply NoDup_rev. rewrite rev_app_distr. simpl.
      constructor; [now rewrite <- in_rev | assumption].
    + apply Forall_app. split; [assumption|].
      constructor; [simpl; lia | constructor].
Qed.

Lemma removeFromCart_WellFormed (x : string) (cart : Cart) :
  WellFormed cart -> WellFormed (removeFromCart x cart).
Proof.
  intros [Hnd Hq]. unfold removeFromCart. split.
  - now apply NoDup_ids_filter.
  - apply Forall_forall. intros item Hin. apply filter_In in Hin as [Hin _].
    rewrite Forall_forall in Hq. auto.
Qed.

Lemma updateQuantity_WellFormed (x : string) (n : Z) (cart : Cart) :
  WellFormed cart -> WellFormed (updateQuantity x n cart).
Proof.
  intros H. unfold updateQuantity.
  destruct (Z.leb_spec n 0) as [Hn | Hn].
  - now apply removeFromCart_WellFormed.
  - destruct H as [Hnd Hq]. split.
    + rewrite ids_map_if; [assumption | reflexivity].
    + apply Forall_map. eapply Forall_impl; [|exact Hq].
      intros item Hi. simpl in Hi. destruct (has_id x item); simpl; lia.
Qed.

Lemma apply_WellFormed (op : Op) (cart : Cart) :
  WellFormed cart -> WellFormed (apply op cart).
Proof.
  destruct op; simpl.
  - apply addToCart_WellFormed.
  - apply removeFromCart_WellFormed.
  - apply updateQuantity_WellFormed.
  - intros _. split; constructor.
Qed.

(** Every cart the store can reach satisfies the invariant. *)
Lemma run_WellFormed (ops : list Op) :
  forall cart, WellFormed cart -> WellFormed (run ops cart).
Proof.
  unfold run. induction ops as [|op ops IH]; intros cart H; simpl; [assumption|].
  apply IH. now apply apply_WellFormed.
Qed.

Lemma initial_WellFormed : WellFormed initial.
Proof. split; constructor. Qed.

(** *** The cart count of one id *)

Lemma countFor_absent (x : string) (l : Cart) :
  absent x l -> countFor x l = 0.
Proof. intros H. unfold countFor. now rewrite lineItemsFor_absent. Qed.

Lemma countFor_unique (x : string) (l1 l2 : Cart) (item : CartItem) :
  id item = x -> absent x l1 -> absent x l2 ->
  countFor x (l1 ++ item :: l2) = quantity item.
Proof.
  intros Hid H1 H2. unfold countFor.
  rewrite lineItemsFor_unique by assumption. simpl. apply Z.add_0_r.
Qed.

Lemma countFor_addToCart (p : Product) (cart : Cart) :
  NoDup (map (fun i : CartItem => id i) cart) ->
  countFor (id p) (addToCart p cart) = countFor (id p) cart + 1.
Proof.
  intros Hnd. destruct (existsb (has_id (id p)) cart) eqn:E.
  - apply existsb_exists in E as [item [Hin Hid]].
    apply has_id_true in Hid.
    apply in_split in Hin as [l1 [l2 ->]].
    destruct (NoDup_split _ _ _ Hnd) as [H1 H2]. rewrite Hid in H1, H2.
    rewrite addToCart_existing by assumption.
    rewrite !countFor_unique by assumption. reflexivity.
  - apply existsb_absent in E.
    rewrite addToCart_new by assumption.
    rewrite (countFor_unique (id p) cart [] (mkCartItem p 1))
      by (reflexivity || assumption || apply absent_nil).
    now rewrite countFor_absent.
Qed.

(** [n] additions of one product add [n] to its cart count. *)
Lemma countFor_iter_addToCart (p : Product) (n : nat) (cart : Cart) :
  WellFormed cart ->
  WellFormed (Nat.iter n (addToCart p) cart) /\
  countFor (id p) (Nat.iter n (addToCart p) cart) =
  countFor (id p) cart + Z.of_nat n.
Proof.
  intros Hwf. induction n as [|n [IHwf IH]].
  - simpl. split; [assumption | lia].
  - rewrite Nat.iter_succ. split.
    + now apply addToCart_WellFormed.
    + rewrite countFor_addToCart by apply IHwf. lia.
Qed.

(** The store takes any number of additions of a product. *)
Lemma iter_addToCart_new (p : Product) (n : nat) (cart : Cart) :
  absent (id p) cart ->
  Nat.iter (S n) (addToCart p) cart = cart ++ [mkCartItem p (Z.of_nat (S n))].
Proof.
  intros Habs. induction n as [|n IH].
  - simpl Nat.iter. now apply addToCart_new.
  - rewrite Nat.iter_succ, IH.
    rewrite addToCart_existing by (reflexivity || assumption || apply absent_nil).
    unfold with_quantity. cbn [quantity product_of]. do 3 f_equal. lia.
Qed.

End CartFacts.

Module CartLaws.
Import Types CartContext CartFacts.

Lemma removeFromCart_present (x : string) (l1 l2 : Cart) (item : CartItem) :
  id item = x -> absent x l1 -> absent x l2 ->
  removeFromCart x (l1 ++ item :: l2) = l1 ++ l2.
Proof.
  intros Hid H1 H2. unfold removeFromCart. rewrite filter_app. simpl.
  apply has_id_true in Hid. rewrite Hid. simpl.
  now rewrite !filter_absent.
Qed.

Lemma removeFromCart_absent (x : string) (cart : Cart) :
  absent x (removeFromCart x cart).
Proof.
  intros item Hin. apply filter_In in Hin as [_ Hneg].
  apply negb_true_iff in Hneg. now apply has_id_false.
Qed.

Lemma removeFromCart_In (x : string) (cart : Cart) (item : CartItem) :
  In item (removeFromCart x cart) <-> In item cart /\ id item <> x.
Proof.
  unfold removeFromCart. rewrite filter_In, negb_true_iff, has_id_false.
  reflexivity.
Qed.

Lemma updateQuantity_present (x : string) (n : Z) (l1 l2 : Cart) (item : CartItem) :
  0 < n -> id item = x -> absent x l1 -> absent x l2 ->
  updateQuantity x n (l1 ++ item :: l2) = l1 ++ with_quantity item n :: l2.
Proof.
  intros Hn Hid H1 H2. unfold updateQuantity.
  destruct (Z.leb_spec n 0) as [Hle | _]; [lia|].
  rewrite map_app. simpl. apply has_id_true in Hid. rewrite Hid.
  now rewrite !map_absent.
Qed.

Lemma updateQuantity_missing (x : string) (n : Z) (cart : Cart) :
  absent x cart -> updateQuantity x n cart = cart.
Proof.
  intros H. unfold updateQuantity, removeFromCart.
  destruct (n <=? 0); [now apply filter_absent | now apply map_absent].
Qed.

(** C1.  [addToCart p] appends a line item with quantity 1 when the cart
    holds none for [p.id], and otherwise adds 1 to the quantity of the
    line item with that id, in place; it keeps the invariant of the
    cart.  After the additions of a sequence [ps] of products of one id
    [x], started from a cart without [x], the cart count for [x] is the
    number of additions, and (when there was one at least) the cart
    holds exactly one line item for [x], whose quantity is that number. *)
Theorem addToCart_spec :
  (forall (p : Product) (cart : Cart),
      absent (id p) cart ->
      addToCart p cart = cart ++ [mkCartItem p 1]) /\
  (forall (p : Product) (l1 l2 : Cart) (item : CartItem),
      id item = id p ->
      NoDup (map (fun i : CartItem => id i) (l1 ++ item :: l2)) ->
      addToCart p (l1 ++ item :: l2) =
      l1 ++ with_quantity item (quantity item + 1) :: l2) /\
  (forall (p : Product) (cart : Cart),
      WellFormed cart -> WellFormed (addToCart p cart)) /\
  (forall (x : string) (ps : list Product) (cart : Cart),
      absent x cart ->
      Forall (fun q => id q = x) ps ->
      let cart' := fold_left (fun c q => addToCart q c) ps cart in
      let n := Z.of_nat (List.length ps) in
      countFor x cart' = n /\
      (ps <> [] ->
       exists item, lineItemsFor x cart' = [item] /\ quantity item = n)).
Proof.
  split; [exact addToCart_new|].
  split.
  { intros p l1 l2 item Hid Hnd.
    apply NoDup_split in Hnd as [H1 H2]. rewrite Hid in H1, H2.
    now apply addToCart_existing. }
  split; [exact addToCart_WellFormed|].
  intros x ps cart Habs Hall cart' n. subst cart' n.
  destruct ps as [|p ps].
  - simpl. unfold countFor. rewrite lineItemsFor_absent by assumption.
    split; [reflexivity | congruence].
  - rewrite (adds_of_one_id x) by assumption.
    assert (Hp : id p = x) by now inversion Hall.
    assert (E : lineItemsFor x
                  (cart ++ [mkCartItem p (Z.of_nat (List.length (p :: ps)))]) =
                [mkCartItem p (Z.of_nat (List.length (p :: ps)))]).
    { apply lineItemsFor_unique; [exact Hp | assumption | apply absent_nil]. }
    split.
    + unfold countFor. rewrite E. cbn [fold_right quantity]. apply Z.add_0_r.
    + intros _. eexists. split; [exact E | reflexivity].
Qed.

(** C1, at the two-line cart of the worked example: a third product is
    appended, a product already there is bumped in place, and three
    additions of a new id give one line item of quantity 3. *)
Lemma addToCart_spec_witness :
  addToCart (example_product "c" 5%float) example_cart =
    example_cart ++ [mkCartItem (example_product "c" 5%float) 1] /\
  addToCart (example_product "a" 199.99%float) example_cart =
    [ mkCartItem (example_product "a" 199.99%float) 3;
      mkCartItem (example_product "b" 49.99%float) 1 ] /\
  WellFormed (addToCart (example_product "a" 199.99%float) initial) /\
  countFor "c" (fold_left (fun c q => addToCart q c)
                  (repeat (example_product "c" 5%float) 3) example_cart) = 3 /\
  exists item,
    lineItemsFor "c" (fold_left (fun c q => addToCart q c)
                        (repeat (example_product "c" 5%float) 3) example_cart) = [item] /\
    quantity item = 3.
Proof.
  destruct addToCart_spec as [Hnew [Hold [Hwf Hseq]]].
  assert (Habs : absent "c" example_cart)
    by (apply existsb_absent; reflexivity).
  assert (Hall : Forall (fun q => id q = "c") (repeat (example_product "c" 5%float) 3))
    by (repeat constructor).
  split; [apply Hnew; exact Habs|].
  split.
  { apply (Hold (example_product "a" 199.99%float) []
                 [mkCartItem (example_product "b" 49.99%float) 1]
                 (mkCartItem (example_product "a" 199.99%float) 2)).
    - reflexivity.
    - simpl. repeat constructor; simpl; intuition discriminate. }
  split; [apply Hwf, initial_WellFormed|].
  destruct (Hseq "c" (repeat (example_product "c" 5%float) 3) example_cart Habs Hall)
    as [Hcount Hone].
  split; [exact Hcount|].
  apply Hone. discriminate.
Defined.

(** C8.  [removeFromCart x] takes the line item with id [x] out of the
    cart and leaves the other line items, in order; without such a line
    item the cart is returned as it is; and removing twice is removing
    once. *)
Theorem removeFromCart_idempotent (x : string) (cart : Cart) :
  (forall (l1 l2 : Cart) (item : CartItem),
      cart = l1 ++ item :: l2 -> id item = x ->
      NoDup (map (fun i : CartItem => id i) cart) ->
      removeFromCart x cart = l1 ++ l2) /\
  (absent x cart -> removeFromCart x cart = cart) /\
  (forall item, In item (removeFromCart x cart) <-> In item cart /\ id item <> x) /\
  removeFromCart x (removeFromCart x cart) = removeFromCart x cart.
Proof.
  split.
  { intros l1 l2 item -> Hid Hnd.
    apply NoDup_split in Hnd as [H1 H2]. rewrite Hid in H1, H2.
    now apply removeFromCart_present. }
  split; [apply filter_absent|].
  split; [apply removeFromCart_In|].
  apply filter_absent, removeFromCart_absent.
Qed.

Lemma removeFromCart_idempotent_witness :
  removeFromCart "a" example_cart = [mkCartItem (example_product "b" 49.99%float) 1] /\
  removeFromCart "c" example_cart = example_cart /\
  removeFromCart "a" (removeFromCart "a" example_cart) =
    removeFromCart "a" example_cart.
Proof.
  split.
  { apply (proj1 (removeFromCart_idempotent "a" example_cart) []
                 [mkCartItem (example_product "b" 49.99%float) 1]
                 (mkCartItem (example_product "a" 199.99%float) 2)).
    - reflexivity.
    - reflexivity.
    - simpl. repeat constructor; simpl; intuition discriminate. }
  split.
  { apply (proj1 (proj2 (removeFromCart_idempotent "c" example_cart))).
    apply existsb_absent. reflexivity. }
  apply (proj2 (proj2 (proj2 (removeFromCart_idempotent "a" example_cart)))).
Defined.

(** C2.  [updateQuantity x n] with [n <= 0] is [removeFromCart x]; with
    [n > 0] it sets the quantity of the line item with id [x] to [n],
    in place and whatever the stock of the product is; and it returns
    the cart as it is when no line item has id [x].  So new quantities
    0 and -1 both remove the line item, as does the minus button of the
    cart drawer on a line item of quantity 1. *)
Theorem updateQuantity_spec :
  (forall (x : string) (n : Z) (cart : Cart),
      n <= 0 -> updateQuantity x n cart = removeFromCart x cart) /\
  (forall (x : string) (n : Z) (l1 l2 : Cart) (item : CartItem),
      0 < n -> id item = x ->
      NoDup (map (fun i : CartItem => id i) (l1 ++ item :: l2)) ->
      updateQuantity x n (l1 ++ item :: l2) = l1 ++ with_quantity item n :: l2) /\
  (forall (x : string) (n : Z) (cart : Cart),
      absent x cart -> updateQuantity x n cart = cart) /\
  (forall (x : string) (cart : Cart),
      updateQuantity x 0 cart = removeFromCart x cart /\
      updateQuantity x (-1) cart = removeFromCart x cart /\
      absent x (updateQuantity x 0 cart) /\
      absent x (updateQuantity x (-1) cart)) /\
  (forall (item : CartItem) (cart : Cart),
      quantity item <= 1 ->
      CartDrawer.onMinusClick item cart = removeFromCart (id item) cart) /\
  (forall (item : CartItem) (l1 l2 : Cart),
      1 < quantity item ->
      NoDup (map (fun i : CartItem => id i) (l1 ++ item :: l2)) ->
      CartDrawer.onMinusClick item (l1 ++ item :: l2) =
      l1 ++ with_quantity item (quantity item - 1) :: l2).
Proof.
  split.
  { intros x n cart Hn. unfold updateQuantity.
    destruct (Z.leb_spec n 0); [reflexivity | lia]. }
  split.
  { intros x n l1 l2 item Hn Hid Hnd.
    apply NoDup_split in Hnd as [H1 H2]. rewrite Hid in H1, H2.
    now apply updateQuantity_present. }
  split; [exact updateQuantity_missing|].
  split.
  { intros x cart. repeat split; try reflexivity; apply removeFromCart_absent. }
  split.
  { intros item cart Hq. unfold CartDrawer.onMinusClick, updateQuantity.
    destruct (Z.leb_spec (quantity item - 1) 0); [reflexivity | lia]. }
  intros item l1 l2 Hq Hnd. unfold CartDrawer.onMinusClick.
  apply NoDup_split in Hnd as [H1 H2].
  apply updateQuantity_present; (lia || reflexivity || assumption).
Qed.

Lemma updateQuantity_spec_witness :
  updateQuantity "a" (-5) example_cart = removeFromCart "a" example_cart /\
  updateQuantity "a" 7 example_cart =
    [ mkCartItem (example_product "a" 199.99%float) 7;
      mkCartItem (example_product "b" 49.99%float) 1 ] /\
  updateQuantity "c" 7 example_cart = example_cart /\
  CartDrawer.onMinusClick (mkCartItem (example_product "b" 49.99%float) 1) example_cart =
    removeFromCart "b" example_cart.
Proof.
  destruct updateQuantity_spec as [Hle [Hset [Hmiss [_ [Hminus _]]]]].
  split; [apply Hle; lia|].
  split.
  { apply (Hset "a" 7 [] [mkCartItem (example_product "b" 49.99%float) 1]
                (mkCartItem (example_product "a" 199.99%float) 2)).
    - lia.
    - reflexivity.
    - simpl. repeat constructor; simpl; intuition discriminate. }
  split.
  { apply Hmiss. apply existsb_absent. reflexivity. }
  apply (Hminus (mkCartItem (example_product "b" 49.99%float) 1)). simpl. lia.
Defined.





(** *** Further laws of section 8 of the specification *)

Lemma count_from (cart : Cart) :
  forall acc : Z,
    fold_left (fun count item => count + quantity item) cart acc =
    acc + fold_right (fun item s => quantity item + s) 0 cart.
Proof.
  induction cart as [|item cart IH]; intros acc; simpl.
  - lia.
  - rewrite IH. lia.
Qed.

(** [getCartCount] is the sum of the quantities; 3 on the example cart. *)
Lemma getCartCount_sum (cart : Cart) :
  getCartCount cart = fold_right (fun item s => quantity item + s) 0 cart.
Proof. unfold getCartCount. now rewrite count_from. Qed.

Lemma getCartCount_example : getCartCount example_cart = 3.
Proof. reflexivity. Qed.

(** After [clearCart] the count and the total are 0. *)
Lemma clearCart_resets (cart : Cart) :
  getCartCount (clearCart cart) = 0 /\ getCartTotal (clearCart cart) = 0%float.
Proof. split; reflexivity. Qed.

(** Mutations apply in issuance order: an addition followed by the
    removal of the same id leaves no line item for it. *)
Lemma add_then_remove (p : Product) (cart : Cart) :
  absent (id p) (run [AddToCart p; RemoveFromCart (id p)] cart).
Proof. apply removeFromCart_absent. Qed.

End CartLaws.

(* ================================================================= *)
(** ** The catalog page *)

Module IndexFacts.
Import Types Eff Supabase Index.

Lemma filter_Selects {A : Type} (f : A -> bool) (P : A -> Prop) (l : list A) :
  (forall x, f x = true <-> P x) -> Selects P l (filter f l).
Proof.
  intros Hf. induction l as [|x l IH]; simpl; [constructor|].
  destruct (f x) eqn:E.
  - apply Selects_keep; [now apply Hf | assumption].
  - apply Selects_drop; [|assumption].
    intros HP. apply Hf in HP. congruence.
Qed.

(** What [Selects] determines: the result is unique, its members are
    the members of the input that satisfy [P]. *)
Lemma Selects_unique {A : Type} (P : A -> Prop) (l out1 out2 : list A) :
  Selects P l out1 -> Selects P l out2 -> out1 = out2.
Proof.
  intros H1; revert out2.
  induction H1 as [|x l out HP H IH|x l out HP H IH];
    intros out2 H2; inversion H2; subst; try contradiction; auto.
  f_equal; auto.
Qed.

Lemma Selects_In {A : Type} (P : A -> Prop) (l out : list A) :
  Selects P l out -> forall x, In x out <-> In x l /\ P x.
Proof.
  induction 1 as [|x l out HP H IH|x l out HP H IH]; intros y; simpl.
  - tauto.
  - rewrite IH. split; [intros [<- | [? ?]]; auto | intros [[<- | ?] ?]; auto].
  - rewrite IH. split; [tauto | intros [[<- | ?] ?]; [contradiction | auto]].
Qed.

Lemma filter_filter {A : Type} (f g : A -> bool) (l : list A) :
  filter g (filter f l) = filter (fun x => f x && g x) l.
Proof.
  induction l as [|x l IH]; simpl; [reflexivity|].
  destruct (f x); simpl; [destruct (g x)|]; now rewrite IH.
Qed.

Lemma filter_all {A : Type} (l : list A) : filter (fun _ => true) l = l.
Proof. induction l as [|x l IH]; simpl; now rewrite ?IH. Qed.

Section Filter.
Variable toLowerCase : string -> string.

Lemma matchesSearch_iff (q : string) (p : Product) :
  matchesSearch toLowerCase q p = true <->
  contains_lowered toLowerCase (name p) q \/
  exists d, description p = Some d /\ contains_lowered toLowerCase d q.
Proof.
  unfold matchesSearch, contains_lowered.
  rewrite orb_true_iff, JsFacts.includes_iff.
  destruct (description p) as [d|].
  - rewrite JsFacts.includes_iff. split.
    + intros [H | H]; [now left | right; now exists d].
    + intros [H | [d' [E H]]]; [now left | right].
      now injection E as ->.
  - split.
    + intros [H | H]; [now left | discriminate].
    + intros [H | [d' [E _]]]; [now left | discriminate].
Qed.

Lemma matchesCategory_iff (sel : string) (p : Product) :
  matchesCategory sel p = true <-> category p = Some sel.
Proof.
  unfold matchesCategory. destruct (category p) as [c|].
  - rewrite String.eqb_eq. split; congruence.
  - split; discriminate.
Qed.

Lemma keeps_iff (q sel : string) (p : Product) :
  keeps toLowerCase q sel p = true <-> passes toLowerCase q sel p.
Proof.
  unfold keeps, passes. rewrite andb_true_iff.
  assert (Hs : (if Js.truthy q then matchesSearch toLowerCase q p else true) = true <->
               (q <> "" ->
                contains_lowered toLowerCase (name p) q \/
                exists d, description p = Some d /\ contains_lowered toLowerCase d q)).
  { destruct (Js.truthy q) eqn:E.
    - apply JsFacts.truthy_nonempty in E. rewrite matchesSearch_iff. tauto.
    - assert (q = "") as -> by (destruct q; [reflexivity | discriminate]).
      split; [intros _ H; congruence | reflexivity]. }
  assert (Hc : (if negb (String.eqb sel "all") then matchesCategory sel p else true) = true <->
               (sel <> "all" -> category p = Some sel)).
  { destruct (String.eqb_spec sel "all") as [-> | Hne]; simpl.
    - split; [intros _ H; congruence | reflexivity].
    - rewrite matchesCategory_iff. tauto. }
  rewrite Hs, Hc. reflexivity.
Qed.

Lemma filterProducts_filter (s : State) :
  filterProducts toLowerCase s =
  (tt,
   mkState (products s)
           (filter (keeps toLowerCase (searchQuery s) (selectedCategory s))
                   (products s))
           (loading s) (searchQuery s) (selectedCategory s) (categories s),
   []).
Proof.
  unfold filterProducts, read, setFilteredProducts, modify, keeps.
  do 3 f_equal.
  destruct (Js.truthy (searchQuery s));
    destruct (negb (String.eqb (selectedCategory s) "all")).
  - apply filter_filter.
  - apply filter_ext. intros p. now rewrite andb_true_r.
  - reflexivity.
  - symmetry. apply filter_all.
Qed.

Section OnAscii.
(** Of [toLowerCase] only its values on ASCII text are assumed. *)
Hypothesis toLowerCase_on_ascii_text :
  forall t, JsText.is_ascii t = true -> toLowerCase t = Js.toLowerCase_ascii t.

Lemma passes_ignoring_case_iff (q sel : string) (p : Product) :
  JsText.is_ascii q = true -> ascii_text p ->
  (passes toLowerCase q sel p <-> passes_ignoring_case q sel p).
Proof.
  intros Hq [Hname Hdesc]. unfold passes, passes_ignoring_case.
  pose proof (TextFacts.contains_lowered_ignoring_case toLowerCase
                toLowerCase_on_ascii_text) as E.
  rewrite (E (name p) q Hname Hq).
  assert (Hd : (exists d, description p = Some d /\ contains_lowered toLowerCase d q) <->
               (exists d, description p = Some d /\ JsText.contains_ignoring_case d q)).
  { split; intros [d [Hsome H]]; exists d; (split; [exact Hsome|]);
      apply (E d q (Hdesc d Hsome) Hq); exact H. }
  rewrite Hd. reflexivity.
Qed.

(** C4, amended.  [filterProducts] stores in [filteredProducts] the
    order-preserving subsequence of [products] made of exactly the
    products that pass: with a non-empty search text, the lower-cased
    name or the lower-cased description (when there is one) contains
    the lower-cased search text as a substring; with a selected category
    other than "all", the category of the product is that very string.
    When the search text, the names and the descriptions are ASCII
    texts, these are exactly the products whose name or description
    contains the search text as a case-insensitive substring.
    [filterProducts] changes no other cell of the state, so none of its
    inputs, and emits nothing. *)
Theorem filterProducts_spec (s : State) :
  let s' := state_after (filterProducts toLowerCase) s in
  Selects (passes toLowerCase (searchQuery s) (selectedCategory s))
          (products s) (filteredProducts s') /\
  (JsText.is_ascii (searchQuery s) = true ->
   Forall ascii_text (products s) ->
   Selects (passes_ignoring_case (searchQuery s) (selectedCategory s))
           (products s) (filteredProducts s')) /\
  products s' = products s /\
  searchQuery s' = searchQuery s /\
  selectedCategory s' = selectedCategory s /\
  categories s' = categories s /\
  loading s' = loading s /\
  events_of (filterProducts toLowerCase) s = [].
Proof.
  unfold state_after, events_of. rewrite filterProducts_filter. simpl.
  split; [apply filter_Selects, keeps_iff|].
  split; [|repeat split].
  intros Hq Hall.
  induction (products s) as [|p l IH]; simpl; [constructor|].
  inversion Hall as [|? ? Hp Hl]; subst.
  pose proof (passes_ignoring_case_iff (searchQuery s) (selectedCategory s) p Hq Hp)
    as Hiff.
  destruct (keeps toLowerCase (searchQuery s) (selectedCategory s) p) eqn:E.
  - apply Selects_keep; [|now apply IH]. now apply Hiff, keeps_iff.
  - apply Selects_drop; [|now apply IH].
    intros Hpass. apply Hiff, keeps_iff in Hpass. congruence.
Qed.
End OnAscii.
End Filter.

(** C4, as the claim words it, fails on text that is not ASCII.  The
    name "ΟΔΟΣ" contains the search text "Σ" as it stands, so all the
    more when letter case is ignored; but [toLowerCase] turns the name
    into "οδος", with the final form of the small sigma, and the search
    text into "σ", which does not occur in it: the product is not
    displayed. *)
Lemma filterProducts_misses_verbatim_text :
  let s := mkState [odos] [] false "Σ" "all" [] in
  let shown := filteredProducts (state_after (filterProducts JsText.toLowerCase) s) in
  JsText.contains_ignoring_case (name odos) "Σ" /\
  passes_ignoring_case "Σ" "all" odos /\
  shown = [] /\
  ~ Selects (passes_ignoring_case "Σ" "all") [odos] shown.
Proof.
  intros s shown.
  assert (Hc : JsText.contains_ignoring_case (name odos) "Σ").
  { exists "ΟΔΟ", "Σ", "". split; reflexivity. }
  assert (Hp : passes_ignoring_case "Σ" "all" odos).
  { split; [intros _; now left | intros H; now contradiction H]. }
  split; [exact Hc|]. split; [exact Hp|]. split; [reflexivity|].
  intros H. inversion H; subst. contradiction.
Qed.

Lemma filterProducts_spec_witness :
  let s := mkState [running_shoes; yoga_mat] [] false "MAT" "all" [] in
  Selects (passes_ignoring_case "MAT" "all") [running_shoes; yoga_mat]
          (filteredProducts (state_after (filterProducts JsText.toLowerCase) s)) /\
  filteredProducts (state_after (filterProducts JsText.toLowerCase) s) = [yoga_mat].
Proof.
  intros s. split; [|reflexivity].
  refine (proj1 (proj2 (filterProducts_spec JsText.toLowerCase
                          TextFacts.toLowerCase_on_ascii s)) _ _).
  - reflexivity.
  - repeat constructor; simpl; intros d H; discriminate H.
Defined.

(** A product without description is found through its name alone, and
    the search ignores letter case. *)
Lemma passes_by_name :
  passes JsText.toLowerCase "MAT" "all" yoga_mat /\
  ~ passes JsText.toLowerCase "mat" "all" running_shoes /\
  ~ passes JsText.toLowerCase "" "sports" yoga_mat.
Proof.
  split; [|split].
  - split.
    + intros _. left. exists "yoga ", "". reflexivity.
    + intros H. now contradiction H.
  - intros H. apply keeps_iff in H. discriminate.
  - intros H. apply keeps_iff in H. discriminate.
Qed.

(** The filtering examples of the specification. *)
Lemma filterProducts_examples :
  let page q sel := mkState [running_shoes; yoga_mat] [] false q sel [] in
  let shown q sel :=
    filteredProducts (state_after (filterProducts JsText.toLowerCase) (page q sel)) in
  shown "mat" "all" = [yoga_mat] /\
  shown "" "Footwear" = [running_shoes] /\
  shown "" "all" = [running_shoes; yoga_mat].
Proof. repeat split. Qed.

(** *** [fetchProducts] *)

Lemma filter_Boolean_In (xs : list (option string)) (c : string) :
  In c (filter_Boolean xs) <-> c <> "" /\ In (Some c) xs.
Proof.
  induction xs as [|v xs IH]; simpl; [tauto|].
  destruct v as [d|]; simpl.
  - destruct (Js.truthy d) eqn:E; simpl; rewrite IH.
    + apply JsFacts.truthy_nonempty in E. split.
      * intros [<- | [? ?]]; auto.
      * intros [? [H | ?]]; [left; congruence | auto].
    + assert (d = "") as -> by (destruct d; [reflexivity | discriminate]).
      split; [tauto | intros [? [H | ?]]; [congruence | auto]].
  - rewrite IH. split; [tauto | intros [? [H | ?]]; [discriminate | auto]].
Qed.

Lemma uniqueCategories_spec (d : list Product) :
  NoDup (uniqueCategories (Some d)) /\
  (forall c, In c (uniqueCategories (Some d)) <->
             c <> "" /\ exists p, In p d /\ category p = Some c).
Proof.
  unfold uniqueCategories, Js.Array_from.
  destruct (JsFacts.new_Set_spec (filter_Boolean (map category d))) as [Hnd Hin].
  split; [exact Hnd|]. intros c.
  rewrite Hin, filter_Boolean_In, in_map_iff.
  split; intros [Hc [p [H1 H2]]]; (split; [exact Hc | exists p; auto]).
Qed.

Lemma fetchProducts_resume_failure (r : Response (list Product)) (e : PostgrestError)
      (s : State) :
  error r = Some e ->
  fetchProducts_resume r s =
  (tt,
   mkState (products s) (filteredProducts s) false
           (searchQuery s) (selectedCategory s) (categories s),
   [ToastError "Failed to load products";
    ConsoleError "Error fetching products:" (message e)]).
Proof. intros H. unfold fetchProducts_resume. rewrite H. reflexivity. Qed.

Lemma fetchProducts_resume_success (r : Response (list Product)) (s : State) :
  error r = None ->
  fetchProducts_resume r s =
  (tt,
   mkState (match data r with Some d => d | None => [] end)
           (filteredProducts s) false
           (searchQuery s) (selectedCategory s) (uniqueCategories (data r)),
   []).
Proof. intros H. unfold fetchProducts_resume. rewrite H. reflexivity. Qed.

(** C5.  When the query of [fetchProducts] resolves with an error, the
    handler leaves [products] and [categories] (and the list on
    display) as they were, whatever the state it resumes in, reports
    the failure once and clears [loading]; [loading] is cleared as well
    when the query resolves without error. *)
Theorem fetchProducts_failure_keeps_list :
  (forall (r : Response (list Product)) (e : PostgrestError) (s : State),
      error r = Some e ->
      let resumed := state_after (fetchProducts_resume r) s in
      let s' := state_after (fetchProducts r) s in
      (products resumed = products s /\
       categories resumed = categories s /\
       filteredProducts resumed = filteredProducts s /\
       loading resumed = false) /\
      (products s' = products s /\
       categories s' = categories s /\
       filteredProducts s' = filteredProducts s /\
       loading s' = false) /\
      events_of (fetchProducts r) s =
        [ToastError "Failed to load products";
         ConsoleError "Error fetching products:" (message e)]) /\
  (forall (r : Response (list Product)) (s : State),
      loading (state_after (fetchProducts_resume r) s) = false /\
      loading (state_after (fetchProducts r) s) = false).
Proof.
  split.
  - intros r e s H. unfold state_after, events_of, fetchProducts, bind.
    simpl. rewrite !(fetchProducts_resume_failure r e) by exact H.
    simpl. repeat split.
  - intros r s. unfold state_after, fetchProducts, bind. simpl.
    destruct (error r) as [e|] eqn:E.
    + rewrite !(fetchProducts_resume_failure r e) by exact E. now split.
    + rewrite !fetchProducts_resume_success by exact E. now split.
Qed.

Lemma fetchProducts_failure_keeps_list_witness :
  let s := mkState [running_shoes; yoga_mat] [yoga_mat] false "mat" "all"
                   ["Footwear"; "Sports"] in
  let s' := state_after (fetchProducts (mkResponse None (Some (mkError "offline")))) s in
  products s' = [running_shoes; yoga_mat] /\
  categories s' = ["Footwear"; "Sports"] /\
  loading s' = false.
Proof.
  intros s s'.
  destruct (proj1 fetchProducts_failure_keeps_list
              (mkResponse None (Some (mkError "offline"))) (mkError "offline") s
              eq_refl) as [_ [[Hp [Hc [_ Hl]]] _]].
  split; [exact Hp|]. split; [exact Hc | exact Hl].
Defined.

(** C6.  When the query resolves without error to the rows [d],
    [fetchProducts] makes [d] the product list and makes [categories]
    a duplicate-free list whose members are exactly the non-empty
    strings that are the category of some row of [d]. *)
Theorem fetchProducts_success_facets (r : Response (list Product))
        (d : list Product) (s : State) :
  error r = None -> data r = Some d ->
  let s' := state_after (fetchProducts r) s in
  products s' = d /\
  NoDup (categories s') /\
  (forall c, In c (categories s') <->
             c <> "" /\ exists p, In p d /\ category p = Some c).
Proof.
  intros He Hd. unfold state_after, fetchProducts, bind. simpl.
  rewrite fetchProducts_resume_success by exact He. rewrite Hd. simpl.
  split; [reflexivity|]. apply uniqueCategories_spec.
Qed.

Lemma fetchProducts_success_facets_witness :
  let d := [ yoga_mat; running_shoes; yoga_mat;
             mkProduct "p3" "Gift Card" None 10%float None None 5 "" "";
             mkProduct "p4" "Sticker" None 1%float None (Some "") 5 "" "" ] in
  let s' := state_after (fetchProducts (mkResponse (Some d) None)) initial in
  products s' = d /\ categories s' = ["Sports"; "Footwear"] /\
  NoDup (categories s').
Proof.
  intros d s'.
  destruct (fetchProducts_success_facets (mkResponse (Some d) None) d initial
              eq_refl eq_refl) as [Hp [Hnd _]].
  split; [exact Hp|]. split; [reflexivity | exact Hnd].
Defined.

End IndexFacts.

(* ================================================================= *)
(** ** The product detail page *)

Module DetailFacts.
Import Eff Supabase ProductDetail.
Import Types (Product, stock, id, mkCartItem).

Lemma fetchProduct_with_id (i : string) (query : string -> Response Product) (s : State) :
  i <> "" ->
  fetchProduct (Some i) query s = fetchProduct_resume (query i) (setLoading true s).
Proof.
  intros Hi. apply JsFacts.truthy_nonempty in Hi.
  unfold fetchProduct. rewrite Hi. unfold bind, modify.
  now destruct (fetchProduct_resume (query i) (setLoading true s)) as [[[] s'] evs].
Qed.

(** C7.  A lookup whose query fails and a lookup that finds no row are
    told apart.  On a failure the page reports "Failed to load product"
    (toast and log), does not navigate and keeps its product; on a
    missing row it reports "Product not found" and navigates to "/",
    and what it renders meanwhile is the not-found placeholder, not a
    detail view; a row found is stored and shown without any report.
    In each case [loading] is cleared. *)
Theorem fetchProduct_failure_or_not_found
        (i : string) (query : string -> Response Product) (s : State) :
  i <> "" ->
  let s' := state_after (fetchProduct (Some i) query) s in
  let evs := events_of (fetchProduct (Some i) query) s in
  (forall e, error (query i) = Some e ->
     evs = [ToastError "Failed to load product";
            ConsoleError "Error fetching product:" (message e)] /\
     existsb is_navigate evs = false /\
     product s' = product s /\ quantity s' = quantity s /\ loading s' = false) /\
  (error (query i) = None -> data (query i) = None ->
     evs = [ToastError "Product not found"; Navigate "/"] /\
     product s' = product s /\ loading s' = false /\
     (product s = None -> render s' = NotFoundView)) /\
  (forall d, error (query i) = None -> data (query i) = Some d ->
     evs = [] /\ product s' = Some d /\ loading s' = false /\
     render s' = DetailView d (quantity s)).
Proof.
  intros Hi. unfold state_after, events_of.
  rewrite fetchProduct_with_id by exact Hi.
  unfold fetchProduct_resume.
  split; [|split].
  - intros e He. rewrite He. simpl. repeat split.
  - intros He Hd. rewrite He, Hd. simpl. repeat split.
    intros Hp. unfold render. simpl. now rewrite Hp.
  - intros d He Hd. rewrite He, Hd. simpl. repeat split.
Qed.

Lemma fetchProduct_failure_or_not_found_witness :
  let lost := fun _ : string => mkResponse (T := Product) None (Some (mkError "timeout")) in
  let none := fun _ : string => mkResponse (T := Product) None None in
  events_of (fetchProduct (Some "42") lost) initial =
    [ToastError "Failed to load product";
     ConsoleError "Error fetching product:" "timeout"] /\
  events_of (fetchProduct (Some "42") none) initial =
    [ToastError "Product not found"; Navigate "/"] /\
  render (state_after (fetchProduct (Some "42") none) initial) = NotFoundView.
Proof.
  intros lost none.
  assert (Hi : "42" <> "") by discriminate.
  destruct (fetchProduct_failure_or_not_found "42" lost initial Hi) as [Hfail _].
  destruct (fetchProduct_failure_or_not_found "42" none initial Hi) as [_ [Hnone _]].
  destruct (Hfail (mkError "timeout") eq_refl) as [He _].
  destruct (Hnone eq_refl eq_refl) as [Hn [_ [_ Hr]]].
  split; [exact He|]. split; [exact Hn | exact (Hr eq_refl)].
Defined.

(** *** The quantity control *)

Lemma click_product (c : Click) (s : State) : product (click c s) = product s.
Proof.
  destruct c; simpl.
  - unfold incrementQuantity. destruct (product s) as [p|] eqn:E; [|exact E].
    destruct (quantity s <? stock p); exact E.
  - unfold decrementQuantity. now destruct (quantity s >? 1).
Qed.

Lemma click_bounds (p : Product) (c : Click) (s : State) :
  product s = Some p ->
  1 <= quantity s <= stock p ->
  1 <= quantity (click c s) <= stock p.
Proof.
  intros Hp Hq. destruct c; simpl.
  - unfold incrementQuantity. rewrite Hp.
    destruct (Z.ltb_spec (quantity s) (stock p)); simpl; lia.
  - unfold decrementQuantity.
    destruct (Z.gtb_spec (quantity s) 1); simpl; lia.
Qed.

Lemma clicks_bounds (p : Product) (cs : list Click) :
  forall s : State,
    product s = Some p ->
    1 <= quantity s <= stock p ->
    product (clicks cs s) = Some p /\ 1 <= quantity (clicks cs s) <= stock p.
Proof.
  unfold clicks. induction cs as [|c cs IH]; intros s Hp Hq; simpl.
  - now split.
  - apply IH.
    + now rewrite click_product.
    + now apply click_bounds.
Qed.

(** C9.  The selected quantity starts at 1, and with a product of stock
    at least 1 on the page every sequence of clicks on the two quantity
    buttons keeps it between 1 and the stock: [incrementQuantity]
    changes nothing once the quantity has reached the stock (where its
    button is disabled), [decrementQuantity] changes nothing at 1 or
    below.  The store has no such bound: it takes one addition more
    than the stock. *)
Theorem quantity_stays_within_stock (p : Product) :
  1 <= stock p ->
  quantity initial = 1 /\
  quantity (loaded p) = 1 /\
  (forall cs : list Click,
      product (clicks cs (loaded p)) = Some p /\
      1 <= quantity (clicks cs (loaded p)) <= stock p) /\
  (forall (s : State) (c : Click),
      product s = Some p -> 1 <= quantity s <= stock p ->
      1 <= quantity (click c s) <= stock p) /\
  (forall s : State,
      product s = Some p -> quantity s >= stock p ->
      incrementQuantity s = s /\ incrementDisabled p s = true) /\
  (forall s : State,
      quantity s <= 1 ->
      decrementQuantity s = s /\ decrementDisabled s = true) /\
  CartContext.lineItemsFor (id p)
    (Nat.iter (Z.to_nat (stock p + 1)) (CartContext.addToCart p) CartContext.initial) =
    [mkCartItem p (stock p + 1)].
Proof.
  intros Hstock.
  split; [reflexivity|]. split; [reflexivity|].
  split.
  { intros cs. apply clicks_bounds; [reflexivity | simpl; lia]. }
  split.
  { intros s c Hp Hq. now apply click_bounds. }
  split.
  { intros s Hp Hq. unfold incrementQuantity, incrementDisabled. rewrite Hp.
    destruct (Z.ltb_spec (quantity s) (stock p)); [lia|].
    split; [reflexivity|]. apply Z.geb_le. lia. }
  split.
  { intros s Hq. unfold decrementQuantity, decrementDisabled.
    destruct (Z.gtb_spec (quantity s) 1); [lia|].
    split; [reflexivity|]. apply Z.leb_le. lia. }
  replace (Z.to_nat (stock p + 1)) with (S (Z.to_nat (stock p))) by lia.
  rewrite CartFacts.iter_addToCart_new by apply CartFacts.absent_nil.
  unfold CartContext.initial.
  rewrite (CartFacts.lineItemsFor_unique (id p) [] []
             (mkCartItem p (Z.of_nat (S (Z.to_nat (stock p))))))
    by (reflexivity || apply CartFacts.absent_nil).
  do 2 f_equal. lia.
Qed.

Lemma quantity_stays_within_stock_witness :
  let p := Index.yoga_mat in
  let pressed := repeat Increment 60 ++ repeat Decrement 70 ++ [Increment; Increment] in
  quantity (clicks (repeat Increment 60) (loaded p)) = 50 /\
  quantity (clicks (repeat Decrement 3) (loaded p)) = 1 /\
  1 <= quantity (clicks pressed (loaded p)) <= 50.
Proof.
  intros p pressed.
  assert (Hs : 1 <= stock p) by (simpl; lia).
  destruct (quantity_stays_within_stock p Hs) as [_ [_ [Hall _]]].
  split; [vm_compute; reflexivity|].
  split; [vm_compute; reflexivity|].
  exact (proj2 (Hall pressed)).
Defined.

(** *** Add to Cart *)

Lemma handleAddToCart_iter (Store : Type) (addToCart : Product -> Store -> Store)
      (s : State) (p : Product) (store : Store) :
  product s = Some p ->
  handleAddToCart Store addToCart s store =
  Nat.iter (Z.to_nat (quantity s)) (addToCart p) store.
Proof.
  intros Hp. unfold handleAddToCart. rewrite Hp.
  apply JsFacts.for_lt_iter.
Qed.

Lemma iter_cons {A : Type} (a : A) (n : nat) (l : list A) :
  Nat.iter n (cons a) l = repeat a n ++ l.
Proof. induction n as [|n IH]; simpl; now rewrite ?IH. Qed.

(** C10.  With a product [p] on the page and the selected quantity [q],
    [handleAddToCart] is [q] calls of [addToCart p], one after the
    other on the store, whatever [addToCart] is and whatever the stock
    of [p]: a store that only records its calls ends with [q] records
    of [p].  On the cart store the cart count of [p] grows by [q].
    Without a product on the page the store is left as it is. *)
Theorem handleAddToCart_adds_quantity :
  (forall (Store : Type) (addToCart : Product -> Store -> Store)
          (s : State) (p : Product) (store : Store),
      product s = Some p ->
      handleAddToCart Store addToCart s store =
      Nat.iter (Z.to_nat (quantity s)) (addToCart p) store) /\
  (forall (s : State) (p : Product) (calls : list Product),
      product s = Some p -> 0 <= quantity s ->
      exists added,
        handleAddToCart (list Product) cons s calls = added ++ calls /\
        Forall (eq p) added /\
        Z.of_nat (List.length added) = quantity s) /\
  (forall (s : State) (p : Product) (cart : CartContext.Cart),
      product s = Some p -> 0 <= quantity s ->
      CartContext.WellFormed cart ->
      CartContext.countFor (id p)
        (handleAddToCart CartContext.Cart CartContext.addToCart s cart) =
      CartContext.countFor (id p) cart + quantity s) /\
  (forall (Store : Type) (addToCart : Product -> Store -> Store)
          (s : State) (store : Store),
      product s = None ->
      handleAddToCart Store addToCart s store = store).
Proof.
  split; [exact handleAddToCart_iter|].
  split.
  { intros s p calls Hp Hq.
    exists (repeat p (Z.to_nat (quantity s))).
    rewrite (handleAddToCart_iter _ _ s p) by exact Hp.
    split; [apply iter_cons|].
    split.
    - apply Forall_forall. intros x Hx. symmetry. exact (repeat_spec _ _ _ Hx).
    - rewrite repeat_length. lia. }
  split.
  { intros s p cart Hp Hq Hwf.
    rewrite (handleAddToCart_iter _ _ s p) by exact Hp.
    destruct (CartFacts.countFor_iter_addToCart p (Z.to_nat (quantity s)) cart Hwf)
      as [_ ->].
    lia. }
  intros Store addToCart s store Hp. unfold handleAddToCart. now rewrite Hp.
Qed.

Lemma handleAddToCart_adds_quantity_witness :
  let s := mkState (Some Index.yoga_mat) false 3 in
  let cart := [mkCartItem Index.running_shoes 1; mkCartItem Index.yoga_mat 2] in
  handleAddToCart CartContext.Cart CartContext.addToCart s cart =
    Nat.iter 3 (CartContext.addToCart Index.yoga_mat) cart /\
  CartContext.countFor "p2"
    (handleAddToCart CartContext.Cart CartContext.addToCart s cart) = 2 + 3 /\
  handleAddToCart CartContext.Cart CartContext.addToCart s cart =
    [mkCartItem Index.running_shoes 1; mkCartItem Index.yoga_mat 5] /\
  handleAddToCart CartContext.Cart CartContext.addToCart
    (mkState None false 3) cart = cart.
Proof.
  intros s cart.
  destruct handleAddToCart_adds_quantity as [Hiter [_ [Hcount Hnone]]].
  assert (Hwf : CartContext.WellFormed cart).
  { split; simpl.
    - repeat constructor; simpl; intuition discriminate.
    - repeat constructor; simpl; lia. }
  split; [exact (Hiter _ _ s Index.yoga_mat cart eq_refl)|].
  split.
  { refine (eq_trans (Hcount s Index.yoga_mat cart eq_refl _ Hwf) _).
    - simpl. lia.
    - reflexivity. }
  split; [reflexivity|].
  apply Hnone. reflexivity.
Defined.

End DetailFacts.

(* ################################################################# *)
(** * Further properties of the components *)

(* ================================================================= *)
(** ** The catalog page: filters and facets *)

Module IndexMore.
Import Types Eff Supabase Index IndexView IndexFacts TextFacts.
Local Open Scope eff_scope.

Lemma state_after_seq {St : Type} (c1 c2 : M St unit) (s : St) :
  state_after (c1 ;; c2) s = state_after c2 (state_after c1 s).
Proof.
  unfold state_after, bind.
  destruct (c1 s) as [[a s1] e1]. simpl.
  now destruct (c2 s1) as [[b s2] e2].
Qed.

Lemma events_of_seq {St : Type} (c1 c2 : M St unit) (s : St) :
  events_of (c1 ;; c2) s = events_of c1 s ++ events_of c2 (state_after c1 s).
Proof.
  unfold events_of, state_after, bind.
  destruct (c1 s) as [[a s1] e1]. simpl.
  now destruct (c2 s1) as [[b s2] e2].
Qed.

Lemma shown_by_filter (toLowerCase : string -> string) (s : State) :
  filteredProducts (state_after (filterProducts toLowerCase) s) =
  filter (keeps toLowerCase (searchQuery s) (selectedCategory s)) (products s).
Proof. unfold state_after. now rewrite filterProducts_filter. Qed.

(** The state once [filterProducts] has run after the search text and
    the selected category were set to [q] and [sel]. *)
Lemma shown_after_set (toLowerCase : string -> string) (q sel : string) (s : State) :
  filteredProducts
    (state_after (setSearchQuery q ;; setSelectedCategory sel ;;
                  filterProducts toLowerCase) s) =
  filter (keeps toLowerCase q sel) (products s).
Proof.
  rewrite !state_after_seq, shown_by_filter. reflexivity.
Qed.

Lemma keeps_no_filter (toLowerCase : string -> string) (l : list Product) :
  filter (keeps toLowerCase "" "all") l = l.
Proof. apply filter_all. Qed.

Section Filters.
Variable toLowerCase : string -> string.

(** X1.  Clear Filters, followed by the filter effect, puts the whole
    product list on display, empties the search text, selects "all" and
    hides the Clear Filters button. *)
Theorem clear_filters_shows_all (s : State) :
  let s' := state_after (handleClearFilters ;; filterProducts toLowerCase) s in
  filteredProducts s' = products s /\
  products s' = products s /\
  searchQuery s' = "" /\
  selectedCategory s' = "all" /\
  showsClearFilters s' = false.
Proof.
  cbv zeta. rewrite state_after_seq.
  unfold state_after at 1. rewrite filterProducts_filter.
  cbn. rewrite keeps_no_filter. repeat split.
Qed.

(** X2.  Whenever the Clear Filters button is not rendered, the filter
    effect displays every product. *)
Theorem no_button_no_filter (s : State) :
  showsClearFilters s = false ->
  filteredProducts (state_after (filterProducts toLowerCase) s) = products s.
Proof.
  unfold showsClearFilters. intros H.
  apply orb_false_iff in H as [Hq Hsel].
  apply negb_false_iff, String.eqb_eq in Hsel.
  assert (Hq' : searchQuery s = "")
    by (destruct (searchQuery s); [reflexivity | discriminate]).
  rewrite shown_by_filter, Hq', Hsel. apply keeps_no_filter.
Qed.

(** X3.  The two filters compose in either order: with a search text [q]
    and a category [sel] both active, the list on display is what the
    category test keeps of the list displayed for [q] alone, and also
    what the search test keeps of the list displayed for [sel] alone. *)
Theorem filters_compose (s : State) (q sel : string) :
  q <> "" -> sel <> "all" ->
  let shown q sel :=
    filteredProducts
      (state_after (setSearchQuery q ;; setSelectedCategory sel ;;
                    filterProducts toLowerCase) s) in
  shown q sel = filter (matchesCategory sel) (shown q "all") /\
  shown q sel = filter (matchesSearch toLowerCase q) (shown "" sel).
Proof.
  intros Hq Hsel shown. subst shown. cbv beta.
  rewrite !shown_after_set.
  apply JsFacts.truthy_nonempty in Hq.
  apply String.eqb_neq in Hsel.
  split.
  - rewrite filter_filter. apply filter_ext. intros p.
    unfold keeps. rewrite Hq, Hsel. simpl. now rewrite andb_true_r.
  - rewrite filter_filter. apply filter_ext. intros p.
    unfold keeps. rewrite Hq, Hsel. simpl. apply andb_comm.
Qed.

Section OnAscii.
(** Of [toLowerCase] only its values on ASCII text are assumed. *)
Hypothesis toLowerCase_on_ascii_text :
  forall t, JsText.is_ascii t = true -> toLowerCase t = Js.toLowerCase_ascii t.

Lemma contains_lowered_inner (text a q b : string) :
  JsText.is_ascii text = true ->
  JsText.is_ascii (a ++ q ++ b) = true ->
  contains_lowered toLowerCase text (a ++ q ++ b) ->
  contains_lowered toLowerCase text q.
Proof.
  intros Ht Hlong [before [after H]].
  assert (Hq : JsText.is_ascii q = true).
  { rewrite !is_ascii_app in Hlong.
    apply andb_true_iff in Hlong as [_ Hlong].
    now apply andb_true_iff in Hlong as [Hlong _]. }
  unfold contains_lowered.
  rewrite (toLowerCase_on_ascii_text text Ht) in *.
  rewrite (toLowerCase_on_ascii_text _ Hlong) in H.
  rewrite (toLowerCase_on_ascii_text q Hq).
  rewrite !toLowerCase_ascii_app in H.
  exists (before ++ Js.toLowerCase_ascii a)%string,
         (Js.toLowerCase_ascii b ++ after)%string.
  rewrite H. now rewrite !string_app_assoc.
Qed.

(** X4.  On ASCII text, extending the search text only narrows the
    result: a product with ASCII name and description that is displayed
    for an ASCII search text that has [q] inside it is displayed for [q]
    as well, under the same category selection. *)
Theorem longer_search_narrows (s : State) (a q b sel : string) (p : Product) :
  q <> "" ->
  JsText.is_ascii (a ++ q ++ b) = true ->
  ascii_text p ->
  In p (filteredProducts
          (state_after (setSearchQuery (a ++ q ++ b) ;; setSelectedCategory sel ;;
                        filterProducts toLowerCase) s)) ->
  In p (filteredProducts
          (state_after (setSearchQuery q ;; setSelectedCategory sel ;;
                        filterProducts toLowerCase) s)).
Proof.
  intros Hq Hlong [Hname Hdesc]. rewrite !shown_after_set, !filter_In.
  intros [Hin Hk]. split; [exact Hin|].
  unfold keeps in *. apply andb_true_iff in Hk as [Hs Hc].
  apply andb_true_iff. split; [|exact Hc].
  pose proof (string_app_nonempty a q b Hq) as Hne.
  apply JsFacts.truthy_nonempty in Hq, Hne. rewrite Hq. rewrite Hne in Hs.
  apply matchesSearch_iff. apply matchesSearch_iff in Hs.
  destruct Hs as [H | [d [Hd H]]].
  - left. now apply (contains_lowered_inner (name p) a q b).
  - right. exists d. split; [exact Hd|].
    apply (contains_lowered_inner d a q b); [now apply Hdesc | exact Hlong | exact H].
Qed.

(** X5.  On ASCII text the search ignores the letter case of what was
    typed: a product whose name, or whose description, contains a text
    [q] is displayed for every non-empty search text that is [q] up to
    the case of its letters, when no category is selected. *)
Theorem match_in_any_case (s : State) (a q b typed : string) (p : Product) :
  In p (products s) ->
  name p = (a ++ q ++ b)%string \/ description p = Some (a ++ q ++ b)%string ->
  JsText.is_ascii (a ++ q ++ b) = true ->
  typed <> "" ->
  JsText.same_up_to_case typed q = true ->
  In p (filteredProducts
          (state_after (setSearchQuery typed ;; setSelectedCategory "all" ;;
                        filterProducts toLowerCase) s)).
Proof.
  intros Hin Htext Hascii Htyped Hcase.
  rewrite shown_after_set, filter_In. split; [exact Hin|].
  unfold keeps. apply JsFacts.truthy_nonempty in Htyped. rewrite Htyped. simpl.
  rewrite andb_true_r. apply matchesSearch_iff.
  assert (Hq : JsText.is_ascii q = true).
  { rewrite !is_ascii_app in Hascii.
    apply andb_true_iff in Hascii as [_ Hascii].
    now apply andb_true_iff in Hascii as [Hascii _]. }
  apply same_up_to_case_lower in Hcase.
  assert (Htypedascii : JsText.is_ascii typed = true)
    by exact (same_case_is_ascii typed q Hcase Hq).
  assert (Hc : contains_lowered toLowerCase (a ++ q ++ b) typed).
  { unfold contains_lowered.
    rewrite (toLowerCase_on_ascii_text _ Hascii),
            (toLowerCase_on_ascii_text _ Htypedascii), Hcase.
    exists (Js.toLowerCase_ascii a), (Js.toLowerCase_ascii b).
    now rewrite !toLowerCase_ascii_app. }
  destruct Htext as [Hname | Hdesc].
  - left. now rewrite Hname.
  - right. now exists (a ++ q ++ b)%string.
Qed.
End OnAscii.
End Filters.

Lemma longer_search_narrows_witness :
  let s := mkState [running_shoes; yoga_mat] [] false "" "all" [] in
  In yoga_mat
     (filteredProducts
        (state_after (setSearchQuery "a" ;; setSelectedCategory "Sports" ;;
                      filterProducts JsText.toLowerCase) s)).
Proof.
  intros s.
  apply (longer_search_narrows JsText.toLowerCase toLowerCase_on_ascii
           s "g" "a" " M" "Sports" yoga_mat).
  - discriminate.
  - reflexivity.
  - split; [reflexivity | intros d H; discriminate H].
  - vm_compute. now left.
Defined.

Lemma match_in_any_case_witness :
  let s := mkState [running_shoes; yoga_mat] [] false "" "all" [] in
  In running_shoes
     (filteredProducts
        (state_after (setSearchQuery "SHOE" ;; setSelectedCategory "all" ;;
                      filterProducts JsText.toLowerCase) s)).
Proof.
  intros s.
  apply (match_in_any_case JsText.toLowerCase toLowerCase_on_ascii
           s "Running " "Shoe" "s" "SHOE" running_shoes).
  - simpl. now left.
  - left. reflexivity.
  - reflexivity.
  - discriminate.
  - reflexivity.
Defined.

Lemma no_button_no_filter_witness :
  filteredProducts
    (state_after (filterProducts JsText.toLowerCase)
       (mkState [running_shoes; yoga_mat] [] false "" "all" ["Footwear"])) =
  [running_shoes; yoga_mat].
Proof.
  apply (no_button_no_filter JsText.toLowerCase
           (mkState [running_shoes; yoga_mat] [] false "" "all" ["Footwear"])).
  reflexivity.
Defined.

Lemma filters_compose_witness :
  let s := mkState [running_shoes; yoga_mat] [] false "" "all" [] in
  let shown q sel :=
    filteredProducts
      (state_after (setSearchQuery q ;; setSelectedCategory sel ;;
                    filterProducts JsText.toLowerCase) s) in
  shown "o" "Sports" = filter (matchesCategory "Sports") (shown "o" "all") /\
  shown "o" "Sports" = filter (matchesSearch JsText.toLowerCase "o") (shown "" "Sports").
Proof.
  intros s.
  apply (filters_compose JsText.toLowerCase s "o" "Sports"); discriminate.
Defined.

(** *** Facets *)

Lemma filter_Boolean_app (xs ys : list (option string)) :
  filter_Boolean (xs ++ ys) = filter_Boolean xs ++ filter_Boolean ys.
Proof.
  induction xs as [|v xs IH]; simpl; [reflexivity|].
  destruct v as [c|]; simpl; [|exact IH].
  destruct (Js.truthy c); simpl; now rewrite IH.
Qed.

(** Adding values to a set appends the new ones after those it holds. *)
Lemma fold_Set_add_extends (ys acc : list string) :
  exists rest,
    fold_left Js.Set_add ys acc = acc ++ rest /\
    (forall c, In c rest -> ~ In c acc).
Proof.
  revert acc. induction ys as [|y ys IH]; intros acc; simpl.
  - exists []. split; [now rewrite app_nil_r | intros c []].
  - destruct (IH (Js.Set_add acc y)) as [rest [E Hrest]].
    unfold Js.Set_add in *. destruct (Js.Set_has acc y) eqn:Hy.
    + exists rest. now split.
    + exists (y :: rest). split.
      * rewrite E, <- app_assoc. reflexivity.
      * intros c [<- | Hc] Hin.
        -- apply JsFacts.Set_has_iff in Hin. congruence.
        -- apply (Hrest c Hc). apply in_or_app. now left.
Qed.

Lemma fetchProducts_success_state (r : Response (list Product)) (s : State) :
  error r = None ->
  state_after (fetchProducts r) s =
  mkState (match data r with Some d => d | None => [] end)
          (filteredProducts s) false
          (searchQuery s) (selectedCategory s) (uniqueCategories (data r)).
Proof.
  intros He. unfold fetchProducts. rewrite state_after_seq.
  unfold state_after. rewrite fetchProducts_resume_success by exact He.
  reflexivity.
Qed.

Lemma fetchProducts_failure_state (r : Response (list Product)) (e : PostgrestError)
      (s : State) :
  error r = Some e ->
  state_after (fetchProducts r) s =
  mkState (products s) (filteredProducts s) false
          (searchQuery s) (selectedCategory s) (categories s).
Proof.
  intros He. unfold fetchProducts. rewrite state_after_seq.
  unfold state_after. rewrite (fetchProducts_resume_failure r e) by exact He.
  reflexivity.
Qed.

Lemma categories_after_fetch (r : Response (list Product)) (d : list Product) (s : State) :
  error r = None -> data r = Some d ->
  categories (state_after (fetchProducts r) s) = uniqueCategories (Some d) /\
  products (state_after (fetchProducts r) s) = d /\
  searchQuery (state_after (fetchProducts r) s) = searchQuery s /\
  selectedCategory (state_after (fetchProducts r) s) = selectedCategory s /\
  loading (state_after (fetchProducts r) s) = false.
Proof.
  intros He Hd. rewrite (fetchProducts_success_state r s He), Hd.
  repeat split.
Qed.

Section Facets.
Variable toLowerCase : string -> string.

(** X6.  Every category the selector offers after a successful fetch,
    other than one spelled "all", leads to a non-empty display: with an
    empty search text, selecting it shows exactly the fetched products
    of that category, in their order. *)
Theorem facet_selects_its_products
        (r : Response (list Product)) (d : list Product) (s : State) (c : string) :
  error r = None -> data r = Some d ->
  let s1 := state_after (fetchProducts r) s in
  In c (categories s1) -> c <> "all" ->
  let shown :=
    filteredProducts
      (state_after (setSearchQuery "" ;; setSelectedCategory c ;;
                    filterProducts toLowerCase) s1) in
  shown <> [] /\
  shown = filter (matchesCategory c) d /\
  (forall p, In p shown <-> In p d /\ category p = Some c).
Proof.
  intros He Hd s1 Hc Hall shown. subst shown s1.
  destruct (categories_after_fetch r d s He Hd) as [Hcat [Hprod _]].
  rewrite Hcat in Hc. rewrite shown_after_set, Hprod.
  assert (E : filter (keeps toLowerCase "" c) d = filter (matchesCategory c) d).
  { apply filter_ext. intros p. unfold keeps. simpl.
    apply String.eqb_neq in Hall. now rewrite Hall. }
  rewrite E.
  assert (Hmem : forall p, In p (filter (matchesCategory c) d) <->
                           In p d /\ category p = Some c).
  { intros p. now rewrite filter_In, matchesCategory_iff. }
  split; [|split; [reflexivity | exact Hmem]].
  apply (proj2 (uniqueCategories_spec d)) in Hc as [_ [p [Hin Hp]]].
  intros Hnil. assert (H : In p (filter (matchesCategory c) d)) by now apply Hmem.
  now rewrite Hnil in H.
Qed.

(** X7.  A product whose category is spelled "all" puts "all" among the
    categories, where it coincides with the value that stands for no
    selection: choosing it displays every fetched product, whatever its
    category. *)
Theorem category_named_all_selects_everything
        (r : Response (list Product)) (d : list Product) (s : State) (p : Product) :
  error r = None -> data r = Some d ->
  In p d -> category p = Some "all" ->
  let s1 := state_after (fetchProducts r) s in
  In "all" (categories s1) /\
  filteredProducts
    (state_after (setSearchQuery "" ;; setSelectedCategory "all" ;;
                  filterProducts toLowerCase) s1) = d.
Proof.
  intros He Hd Hin Hp s1. subst s1.
  destruct (categories_after_fetch r d s He Hd) as [Hcat [Hprod _]].
  split.
  - rewrite Hcat. apply uniqueCategories_spec.
    split; [discriminate | now exists p].
  - rewrite shown_after_set, Hprod. apply keeps_no_filter.
Qed.

(** X8.  While the query is pending the page shows the loading text.
    Once it has resolved the product grid is back: after a success with
    no filter active it holds all the fetched rows, and after a failure
    it holds what was displayed before. *)
Theorem grid_after_fetch (r : Response (list Product)) (s : State) :
  showsClearFilters s = false ->
  productsSection (state_after fetchProducts_begin s) = LoadingText /\
  (forall d, error r = None -> data r = Some d ->
     productsSection (state_after (fetchProducts r ;; filterProducts toLowerCase) s) =
     ProductGrid d) /\
  (forall e, error r = Some e ->
     productsSection (state_after (fetchProducts r) s) =
     ProductGrid (filteredProducts s)).
Proof.
  intros Hclear. split; [reflexivity|]. split.
  - intros d He Hd.
    destruct (categories_after_fetch r d s He Hd) as [_ [Hprod [Hq [Hsel Hload]]]].
    assert (Hshown : filteredProducts
                       (state_after (fetchProducts r ;; filterProducts toLowerCase) s) = d).
    { rewrite state_after_seq, no_button_no_filter; [exact Hprod|].
      unfold showsClearFilters. now rewrite Hq, Hsel. }
    unfold productsSection. rewrite Hshown.
    rewrite state_after_seq.
    unfold state_after at 1. rewrite filterProducts_filter.
    cbn [fst snd loading]. now rewrite Hload.
  - intros e He. now rewrite (fetchProducts_failure_state r e s He).
Qed.
End Facets.

(** X9.  The categories come in the order of their first occurrence
    among the fetched rows: for rows [d1] followed by rows [d2], the
    categories of [d1] come first, followed by those only [d2] has. *)
Theorem categories_in_first_occurrence_order (d1 d2 : list Product) :
  exists rest,
    uniqueCategories (Some (d1 ++ d2)) = uniqueCategories (Some d1) ++ rest /\
    (forall c, In c rest -> ~ In c (uniqueCategories (Some d1))) /\
    (forall c, In c rest -> In c (uniqueCategories (Some d2))).
Proof.
  unfold uniqueCategories, Js.Array_from, Js.new_Set.
  rewrite map_app, filter_Boolean_app, fold_left_app.
  destruct (fold_Set_add_extends (filter_Boolean (map category d2))
              (fold_left Js.Set_add (filter_Boolean (map category d1)) []))
    as [rest [E Hrest]].
  exists rest. split; [exact E|]. split; [exact Hrest|].
  intros c Hc.
  apply (proj2 (JsFacts.new_Set_spec _)).
  destruct (JsFacts.fold_Set_add (filter_Boolean (map category d2))
              (fold_left Js.Set_add (filter_Boolean (map category d1)) [])
              (proj1 (JsFacts.new_Set_spec _))) as [_ Hin].
  assert (H : In c (fold_left Js.Set_add (filter_Boolean (map category d2))
                      (fold_left Js.Set_add (filter_Boolean (map category d1)) []))).
  { rewrite E. apply in_or_app. now right. }
  apply Hin in H as [H | H]; [|exact H].
  exfalso. exact (Hrest c Hc H).
Qed.

Lemma facet_selects_its_products_witness :
  let d := [yoga_mat; running_shoes; yoga_mat] in
  let s1 := state_after (fetchProducts (mkResponse (Some d) None)) initial in
  filteredProducts
    (state_after (setSearchQuery "" ;; setSelectedCategory "Sports" ;;
                  filterProducts JsText.toLowerCase) s1) =
  filter (matchesCategory "Sports") d.
Proof.
  intros d s1.
  refine (proj1 (proj2 (facet_selects_its_products JsText.toLowerCase
            (mkResponse (Some d) None) d initial "Sports" eq_refl eq_refl _ _))).
  - simpl. now left.
  - discriminate.
Defined.

Lemma category_named_all_selects_everything_witness :
  let odd := mkProduct "p9" "Everything Bag" None 5%float None (Some "all") 3 "" "" in
  let d := [yoga_mat; odd] in
  let s1 := state_after (fetchProducts (mkResponse (Some d) None)) initial in
  In "all" (categories s1) /\
  filteredProducts
    (state_after (setSearchQuery "" ;; setSelectedCategory "all" ;;
                  filterProducts JsText.toLowerCase) s1) = d.
Proof.
  intros odd d s1.
  apply (category_named_all_selects_everything JsText.toLowerCase
           (mkResponse (Some d) None) d initial odd eq_refl eq_refl).
  - simpl. auto.
  - reflexivity.
Defined.

Lemma grid_after_fetch_witness :
  productsSection
    (state_after (fetchProducts (mkResponse (Some [yoga_mat]) None) ;;
                  filterProducts JsText.toLowerCase) initial) =
  ProductGrid [yoga_mat].
Proof.
  refine (proj1 (proj2 (grid_after_fetch JsText.toLowerCase
            (mkResponse (Some [yoga_mat]) None) initial eq_refl)) [yoga_mat] eq_refl eq_refl).
Defined.

End IndexMore.

(* ================================================================= *)
(** ** The detail page: quantity control, lookups and Add to Cart *)

Module DetailMore.
Import Eff Supabase ProductDetail DetailView DetailFacts.
Import Types (Product, stock, id).
Local Open Scope eff_scope.

Lemma state_eta (s : State) :
  mkState (product s) (loading s) (quantity s) = s.
Proof. now destruct s. Qed.

Lemma clicks_repeat_S (c : Click) (n : nat) (s : State) :
  clicks (repeat c (S n)) s = clicks (repeat c n) (click c s).
Proof. reflexivity. Qed.

Lemma increments_from (p : Product) (n : nat) :
  forall s : State,
    product s = Some p -> quantity s <= stock p ->
    quantity (clicks (repeat Increment n) s) =
    Z.min (quantity s + Z.of_nat n) (stock p).
Proof.
  induction n as [|n IH]; intros s Hp Hq.
  - simpl. lia.
  - rewrite clicks_repeat_S.
    assert (Hp' : product (click Increment s) = Some p)
      by now rewrite click_product.
    assert (Hstep : quantity (click Increment s) =
                    if quantity s <? stock p then quantity s + 1 else quantity s).
    { simpl. unfold incrementQuantity. rewrite Hp.
      now destruct (quantity s <? stock p). }
    rewrite (IH _ Hp'); rewrite Hstep;
      destruct (Z.ltb_spec (quantity s) (stock p)); lia.
Qed.

(** X10.  From the freshly loaded page of a product with stock at least
    1, [n] clicks on the plus button select the quantity [1 + n], capped
    at the stock. *)
Theorem increments_saturate_at_stock (p : Product) (n : nat) :
  1 <= stock p ->
  quantity (clicks (repeat Increment n) (loaded p)) =
  Z.min (1 + Z.of_nat n) (stock p).
Proof.
  intros Hstock. apply (increments_from p n (loaded p)); [reflexivity | simpl; lia].
Qed.

Lemma increments_saturate_at_stock_witness :
  quantity (clicks (repeat Increment 3) (loaded Index.yoga_mat)) = 4 /\
  quantity (clicks (repeat Increment 80) (loaded Index.yoga_mat)) = 50.
Proof.
  split.
  - apply (increments_saturate_at_stock Index.yoga_mat 3). simpl. lia.
  - apply (increments_saturate_at_stock Index.yoga_mat 80). simpl. lia.
Defined.

(** X11.  [n] clicks on the minus button lower a selected quantity of at
    least 1 by [n], but never below 1; they need no product on the page. *)
Theorem decrements_stop_at_one (n : nat) :
  forall s : State,
    1 <= quantity s ->
    quantity (clicks (repeat Decrement n) s) = Z.max 1 (quantity s - Z.of_nat n) /\
    product (clicks (repeat Decrement n) s) = product s.
Proof.
  induction n as [|n IH]; intros s Hq.
  - simpl. split; [lia | reflexivity].
  - rewrite clicks_repeat_S.
    assert (Hstep : quantity (click Decrement s) =
                    if quantity s >? 1 then quantity s - 1 else quantity s).
    { simpl. unfold decrementQuantity. now destruct (quantity s >? 1). }
    assert (Hq' : 1 <= quantity (click Decrement s)).
    { rewrite Hstep. destruct (Z.gtb_spec (quantity s) 1); lia. }
    destruct (IH _ Hq') as [IHq IHp]. split.
    + rewrite IHq, Hstep. destruct (Z.gtb_spec (quantity s) 1); lia.
    + now rewrite IHp, click_product.
Qed.

Lemma decrements_stop_at_one_witness :
  quantity (clicks (repeat Decrement 2) (mkState None false 5)) = 3 /\
  quantity (clicks (repeat Decrement 9) (mkState None false 5)) = 1.
Proof.
  split.
  - refine (proj1 (decrements_stop_at_one 2 (mkState None false 5) _)). simpl. lia.
  - refine (proj1 (decrements_stop_at_one 9 (mkState None false 5) _)). simpl. lia.
Defined.

(** X12.  The two buttons undo each other inside the bounds: minus after
    plus restores the page when the quantity was at least 1 and below
    the stock, and plus after minus restores it when the quantity was
    above 1 and at most the stock. *)
Theorem plus_and_minus_cancel (p : Product) (s : State) :
  product s = Some p ->
  (1 <= quantity s < stock p ->
   decrementQuantity (incrementQuantity s) = s) /\
  (1 < quantity s <= stock p ->
   incrementQuantity (decrementQuantity s) = s).
Proof.
  destruct s as [pr l q]. simpl. intros ->. split; intros Hq.
  - unfold incrementQuantity. simpl.
    destruct (Z.ltb_spec q (stock p)); [|lia].
    unfold decrementQuantity, setQuantity. simpl.
    destruct (Z.gtb_spec (q + 1) 1); [|lia].
    f_equal. lia.
  - unfold decrementQuantity. simpl.
    destruct (Z.gtb_spec q 1); [|lia].
    unfold incrementQuantity, setQuantity. simpl.
    destruct (Z.ltb_spec (q - 1) (stock p)); [|lia].
    f_equal. lia.
Qed.

Lemma plus_and_minus_cancel_witness :
  let s := mkState (Some Index.yoga_mat) false 7 in
  decrementQuantity (incrementQuantity s) = s /\
  incrementQuantity (decrementQuantity s) = s.
Proof.
  intros s.
  destruct (plus_and_minus_cancel Index.yoga_mat s eq_refl) as [H1 H2].
  split; [apply H1 | apply H2]; simpl; lia.
Defined.

(** X13.  With a product on the page, each quantity button is enabled
    exactly when a click on it changes the selected quantity. *)
Theorem enabled_iff_click_changes (p : Product) (s : State) :
  product s = Some p ->
  (incrementDisabled p s = false <-> quantity (incrementQuantity s) <> quantity s) /\
  (decrementDisabled s = false <-> quantity (decrementQuantity s) <> quantity s).
Proof.
  intros Hp. unfold incrementDisabled, decrementDisabled,
    incrementQuantity, decrementQuantity. rewrite Hp.
  split.
  - destruct (Z.geb_spec (quantity s) (stock p));
      destruct (Z.ltb_spec (quantity s) (stock p)); simpl; try lia;
      split; (discriminate || congruence || lia || (intros; reflexivity)).
  - destruct (Z.leb_spec (quantity s) 1);
      destruct (Z.gtb_spec (quantity s) 1); simpl; try lia;
      split; (discriminate || congruence || lia || (intros; reflexivity)).
Qed.

Lemma enabled_iff_click_changes_witness :
  let s := mkState (Some Index.yoga_mat) false 50 in
  incrementDisabled Index.yoga_mat s = true /\
  quantity (decrementQuantity s) <> quantity s.
Proof.
  intros s.
  destruct (enabled_iff_click_changes Index.yoga_mat s eq_refl) as [_ Hdec].
  split; [reflexivity | apply Hdec; reflexivity].
Defined.

(** *** Lookups and Add to Cart *)

Lemma recorded_calls (s : State) (p : Product) (calls : list Product) :
  product s = Some p ->
  handleAddToCart (list Product) cons s calls =
  repeat p (Z.to_nat (quantity s)) ++ calls.
Proof.
  intros Hp. rewrite (handleAddToCart_iter _ _ s p) by exact Hp.
  apply iter_cons.
Qed.

Lemma Forall_repeat {A : Type} (a : A) (n : nat) : Forall (eq a) (repeat a n).
Proof. induction n; simpl; constructor; auto. Qed.

(** X14.  Without a route parameter (or with an empty one) [fetchProduct]
    does nothing at all: no query, no report, no navigation, and
    [loading] is never cleared, so a page opened that way keeps showing
    the loading text. *)
Theorem no_id_stays_loading (id : option string) (query : string -> Response Product)
        (s : State) :
  Js.Boolean id = false ->
  state_after (fetchProduct id query) s = s /\
  events_of (fetchProduct id query) s = [] /\
  render (state_after (fetchProduct id query) initial) = LoadingView.
Proof.
  intros Hid. unfold fetchProduct.
  destruct id as [i|]; simpl in Hid; [rewrite Hid|]; repeat split.
Qed.

Lemma no_id_stays_loading_witness :
  render (state_after
            (fetchProduct (Some "") (fun _ => mkResponse (Some Index.yoga_mat) None))
            initial) = LoadingView.
Proof.
  refine (proj2 (proj2 (no_id_stays_loading (Some "")
            (fun _ => mkResponse (Some Index.yoga_mat) None) initial _))).
  reflexivity.
Defined.

(** X15.  A successful lookup replaces the product on the page but keeps
    the selected quantity: Add to Cart then adds the new product in the
    quantity selected before, whatever the stock of the new product. *)
Theorem lookup_keeps_selected_quantity
        (i : string) (query : string -> Response Product) (d : Product)
        (s : State) (calls : list Product) :
  i <> "" -> error (query i) = None -> data (query i) = Some d ->
  0 <= quantity s ->
  let s' := state_after (fetchProduct (Some i) query) s in
  product s' = Some d /\
  quantity s' = quantity s /\
  exists added,
    handleAddToCart (list Product) cons s' calls = added ++ calls /\
    Forall (eq d) added /\
    Z.of_nat (List.length added) = quantity s.
Proof.
  intros Hi He Hd Hq s'.
  assert (Hs' : product s' = Some d /\ quantity s' = quantity s).
  { subst s'. unfold state_after. rewrite fetchProduct_with_id by exact Hi.
    unfold fetchProduct_resume. rewrite He, Hd. now split. }
  destruct Hs' as [Hp Hqs]. split; [exact Hp|]. split; [exact Hqs|].
  exists (repeat d (Z.to_nat (quantity s'))).
  split; [now apply recorded_calls|].
  split; [apply Forall_repeat|].
  rewrite repeat_length, Hqs. lia.
Qed.

Lemma lookup_keeps_selected_quantity_witness :
  let small := Types.mkProduct "p7" "Last One" None 9%float None None 1 "" "" in
  let s := clicks (repeat Increment 4) (loaded Index.yoga_mat) in
  let s' := state_after (fetchProduct (Some "p7") (fun _ => mkResponse (Some small) None)) s in
  product s' = Some small /\ quantity s' = 5.
Proof.
  intros small s s'.
  destruct (lookup_keeps_selected_quantity "p7"
              (fun _ => mkResponse (Some small) None) small s []) as [Hp [Hq _]].
  - discriminate.
  - reflexivity.
  - reflexivity.
  - vm_compute. discriminate.
  - split; [exact Hp | exact Hq].
Defined.

(** X16.  On a page reached from the freshly loaded product by clicks on
    the quantity buttons alone, Add to Cart calls [addToCart] with that
    product at least once and at most as many times as its stock. *)
Theorem add_to_cart_within_stock (p : Product) (cs : list Click)
        (calls : list Product) :
  1 <= stock p ->
  exists added,
    handleAddToCart (list Product) cons (clicks cs (loaded p)) calls = added ++ calls /\
    Forall (eq p) added /\
    1 <= Z.of_nat (List.length added) <= stock p.
Proof.
  intros Hstock.
  destruct (clicks_bounds p cs (loaded p) eq_refl) as [Hp Hq]; [simpl; lia|].
  exists (repeat p (Z.to_nat (quantity (clicks cs (loaded p))))).
  split; [now apply recorded_calls|].
  split; [apply Forall_repeat|].
  rewrite repeat_length. lia.
Qed.

Lemma add_to_cart_within_stock_witness :
  exists added,
    handleAddToCart (list Product) cons
      (clicks (repeat Increment 99) (loaded Index.running_shoes)) [] = added ++ [] /\
    Forall (eq Index.running_shoes) added /\
    1 <= Z.of_nat (List.length added) <= 40.
Proof.
  apply (add_to_cart_within_stock Index.running_shoes (repeat Increment 99) []).
  simpl. lia.
Defined.

End DetailMore.

(* ================================================================= *)
(** ** The product card and the shared markup *)

Module CardMore.
Import Types Eff ProductCard.
Local Open Scope eff_scope.

(** X17.  A click on the enabled Add to Cart button of a card calls
    [addToCart] once with the product of the card and does not navigate,
    because the handler stops the propagation of the click: the same
    click with a handler that only adds would go on to open the detail
    page.  A click elsewhere on the card navigates to "/product/<id>"
    and leaves the store alone. *)
Theorem card_button_adds_without_navigating
        (Store : Type) (addToCart : Product -> Store -> Store)
        (product : Product) (store : Store) :
  addDisabled product = false ->
  let c : Ctx Store := (mkMouseEvent false, store) in
  let open := Navigate ("/product/" ++ id product)%string in
  (snd (state_after (clickAddButton Store addToCart product) c) = addToCart product store /\
   events_of (clickAddButton Store addToCart product) c = []) /\
  (snd (state_after (clickCard Store product) c) = store /\
   events_of (clickCard Store product) c = [open]) /\
  events_of
    (bubble Store
       (modify (fun c : Ctx Store => (fst c, addToCart product (snd c))))
       (handleCardClick Store product)) c = [open].
Proof. intros _. repeat split. Qed.

Lemma card_button_adds_without_navigating_witness :
  let c : Ctx (list Product) := (mkMouseEvent false, []) in
  snd (state_after (clickAddButton (list Product) cons Index.yoga_mat) c) =
    [Index.yoga_mat] /\
  events_of (clickAddButton (list Product) cons Index.yoga_mat) c = [] /\
  events_of (clickCard (list Product) Index.yoga_mat) c = [Navigate "/product/p2"].
Proof.
  intros c.
  destruct (card_button_adds_without_navigating (list Product) cons Index.yoga_mat []
              eq_refl) as [[Ha He] [[_ Hn] _]].
  split; [exact Ha|]. split; [exact He | exact Hn].
Defined.

(** X18.  For a stock that is not negative, the card disables its button
    exactly when its stock line reads "Out of stock", and enables it
    exactly when the detail page offers the quantity control and its own
    Add to Cart button.  The two pages read "Out of stock" in the same
    cases; for a positive stock the card prints the stock followed by
    " in stock" and the detail page the stock followed by
    " items in stock".  For a negative stock the card keeps its button
    enabled although both pages read "Out of stock" and the detail page
    offers no control. *)
Theorem card_and_detail_agree_on_stock (p : Product) :
  (0 <= stock p ->
   (addDisabled p = true <-> stockText p = Markup.OutOfStock) /\
   (addDisabled p = false <-> DetailView.showsPurchaseControls p = true)) /\
  (DetailView.availability p = Markup.OutOfStock <->
   stockText p = Markup.OutOfStock) /\
  (0 < stock p ->
   stockText p = Markup.InStock (stock p) " in stock" /\
   DetailView.availability p = Markup.InStock (stock p) " items in stock") /\
  (stock p < 0 ->
   addDisabled p = false /\
   stockText p = Markup.OutOfStock /\
   DetailView.availability p = Markup.OutOfStock /\
   DetailView.showsPurchaseControls p = false).
Proof.
  unfold addDisabled, stockText, DetailView.showsPurchaseControls,
    DetailView.availability, Markup.stockLabel.
  split; [|split; [|split]].
  - intros Hs.
    destruct (Z.eqb_spec (stock p) 0); destruct (Z.gtb_spec (stock p) 0);
      try lia; split; split; (discriminate || reflexivity || congruence).
  - destruct (Z.gtb_spec (stock p) 0); split; intros Hout;
      first [discriminate Hout | reflexivity].
  - intros Hs. destruct (Z.gtb_spec (stock p) 0); [now split | lia].
  - intros Hs.
    destruct (Z.eqb_spec (stock p) 0); destruct (Z.gtb_spec (stock p) 0);
      try lia; repeat split.
Qed.

Lemma card_and_detail_agree_on_stock_witness :
  let sold_out := mkProduct "p5" "Mug" None 4%float None None 0 "" "" in
  let oversold := mkProduct "p6" "Lamp" None 4%float None None (-2) "" "" in
  (addDisabled sold_out = true <-> stockText sold_out = Markup.OutOfStock) /\
  (addDisabled oversold = false /\ stockText oversold = Markup.OutOfStock) /\
  stockText Index.yoga_mat = Markup.InStock 50 " in stock" /\
  DetailView.availability Index.yoga_mat = Markup.InStock 50 " items in stock".
Proof.
  intros sold_out oversold.
  destruct (card_and_detail_agree_on_stock sold_out) as [H0 _].
  destruct (card_and_detail_agree_on_stock oversold) as [_ [_ [_ Hneg]]].
  destruct (card_and_detail_agree_on_stock Index.yoga_mat) as [_ [_ [Hpos _]]].
  split; [|split].
  - apply H0. simpl. lia.
  - assert (Hlt : stock oversold < 0) by (simpl; lia).
    destruct (Hneg Hlt) as [Ha [Hb _]]. now split.
  - apply Hpos. simpl. lia.
Defined.

(** X19.  The image source and the description text are never empty:
    a missing or empty value is replaced by the fallback, and any other
    value is shown as it is. *)
Theorem fallbacks_fill_missing_text (v : option string) (fallback : string) :
  fallback <> "" ->
  Markup.or_else v fallback <> "" /\
  (forall t, v = Some t -> t <> "" -> Markup.or_else v fallback = t) /\
  (v = None \/ v = Some "" -> Markup.or_else v fallback = fallback).
Proof.
  intros Hf. unfold Markup.or_else. split; [|split].
  - destruct v as [t|]; [|exact Hf].
    destruct (Js.truthy t) eqn:E; [|exact Hf].
    now apply JsFacts.truthy_nonempty.
  - intros t -> Ht. apply JsFacts.truthy_nonempty in Ht. now rewrite Ht.
  - intros [-> | ->]; reflexivity.
Qed.

Lemma fallbacks_fill_missing_text_witness :
  Markup.imageSrc (Some "") = "/placeholder.svg" /\
  DetailView.descriptionText Index.yoga_mat = "No description available" /\
  Markup.imageSrc (Some "https://cdn/x.png") <> "".
Proof.
  assert (H1 : "/placeholder.svg" <> "") by discriminate.
  assert (H2 : "No description available" <> "") by discriminate.
  split; [|split].
  - apply (proj2 (proj2 (fallbacks_fill_missing_text (Some "") _ H1))). now right.
  - apply (proj2 (proj2 (fallbacks_fill_missing_text None _ H2))). now left.
  - apply (proj1 (fallbacks_fill_missing_text (Some "https://cdn/x.png") _ H1)).
Defined.

End CardMore.

(* ================================================================= *)
(** ** The cart drawer on the cart store

    The drawer of [src/components/Cart.tsx] is embedded from its source;
    the store operations it calls are those of module [CartContext]. *)

Module DrawerMore.
Import Types CartContext CartFacts DrawerView.

Lemma find_unique (x : string) (l1 l2 : Cart) (item : CartItem) :
  id item = x -> absent x l1 ->
  find (has_id x) (l1 ++ item :: l2) = Some item.
Proof.
  intros Hid H1. induction l1 as [|a l1 IH]; simpl.
  - apply has_id_true in Hid. now rewrite Hid.
  - apply absent_cons in H1 as [Ha H1]. apply has_id_false in Ha.
    rewrite Ha. now apply IH.
Qed.

Lemma find_absent (x : string) (l : Cart) :
  absent x l -> find (has_id x) l = None.
Proof.
  induction l as [|a l IH]; simpl; intros H; [reflexivity|].
  apply absent_cons in H as [Ha H]. apply has_id_false in Ha.
  rewrite Ha. now apply IH.
Qed.

Lemma count_lower_bound (cart : Cart) :
  Forall (fun item => 1 <= quantity item) cart ->
  Z.of_nat (List.length cart) <= fold_right (fun item s => quantity item + s) 0 cart.
Proof.
  induction 1 as [|item cart Hi Hc IH]; simpl List.length; simpl fold_right; lia.
Qed.

Lemma getCartCount_fold (cart : Cart) :
  getCartCount cart = fold_right (fun item s => quantity item + s) 0 cart.
Proof.
  unfold getCartCount.
  assert (H : forall acc,
             fold_left (fun count item => count + quantity item) cart acc =
             acc + fold_right (fun item s => quantity item + s) 0 cart).
  { induction cart as [|item cart IH]; intros acc; simpl; [lia|].
    rewrite IH. lia. }
  now rewrite H.
Qed.

(** Every cart reached from the empty cart by the operations of
    the store holds at most one line item per product id, each with a
    quantity of at least 1; so the count of the badge is never below
    the number of lines. *)
Theorem reachable_carts_are_well_formed (ops : list Op) :
  WellFormed (run ops initial) /\
  Z.of_nat (List.length (run ops initial)) <= getCartCount (run ops initial).
Proof.
  assert (H : WellFormed (run ops initial))
    by (apply run_WellFormed, initial_WellFormed).
  split; [exact H|].
  rewrite getCartCount_fold. apply count_lower_bound, H.
Qed.

(** X20.  On a cart that satisfies the invariant the four parts of the
    drawer agree: the badge is hidden, the description reads "Your cart
    is empty", the placeholder replaces the lines and the footer with
    the total is left out, each exactly when the cart has no line. *)
Theorem drawer_parts_agree (cart : Cart) :
  WellFormed cart ->
  (badge cart = None <-> cart = []) /\
  (description cart = CartIsEmpty <-> cart = []) /\
  (body cart = StartShopping <-> cart = []) /\
  (footer cart = None <-> cart = []).
Proof.
  intros [_ Hq].
  pose proof (count_lower_bound cart Hq) as Hlow.
  rewrite <- getCartCount_fold in Hlow.
  unfold badge, description, body, footer.
  destruct cart as [|item cart].
  - repeat split; reflexivity.
  - simpl List.length in *.
    destruct (Z.gtb_spec (getCartCount (item :: cart)) 0); [|lia].
    destruct (Z.eqb_spec (getCartCount (item :: cart)) 0); [lia|].
    simpl. repeat split; discriminate.
Qed.

Lemma drawer_parts_agree_witness :
  badge example_cart <> None /\ description example_cart <> CartIsEmpty.
Proof.
  assert (Hwf : WellFormed example_cart).
  { split; simpl.
    - repeat constructor; simpl; intuition discriminate.
    - repeat constructor; simpl; lia. }
  destruct (drawer_parts_agree example_cart Hwf) as [Hb [Hd _]].
  split; intros H; [apply Hb in H | apply Hd in H]; discriminate.
Defined.

Lemma quantity_with_quantity (item : CartItem) (q : Z) :
  quantity (with_quantity item q) = q.
Proof. reflexivity. Qed.

Lemma pressMinus_line (x : string) (l1 l2 : Cart) (item : CartItem) :
  id item = x -> absent x l1 -> absent x l2 ->
  pressMinus x (l1 ++ item :: l2) =
  if quantity item <=? 1
  then l1 ++ l2
  else l1 ++ with_quantity item (quantity item - 1) :: l2.
Proof.
  intros Hid H1 H2. unfold pressMinus.
  rewrite find_unique by assumption.
  unfold CartDrawer.onMinusClick, updateQuantity. rewrite Hid.
  apply has_id_true in Hid.
  destruct (Z.leb_spec (quantity item) 1);
    destruct (Z.leb_spec (quantity item - 1) 0); try lia.
  - unfold removeFromCart. rewrite filter_app. simpl.
    rewrite Hid. simpl. now rewrite !filter_absent.
  - rewrite map_app. simpl. rewrite Hid.
    now rewrite !map_absent.
Qed.

(** X21.  Pressing the minus button of a line again and again lowers
    its quantity by 1 per press and leaves the other lines untouched;
    the press that would reach 0 removes the line, and further presses
    change nothing. *)
Theorem minus_presses_count_down (l1 l2 : Cart) (item : CartItem) (n : nat) :
  WellFormed (l1 ++ item :: l2) ->
  Nat.iter n (pressMinus (id item)) (l1 ++ item :: l2) =
  if Z.of_nat n <? quantity item
  then l1 ++ with_quantity item (quantity item - Z.of_nat n) :: l2
  else l1 ++ l2.
Proof.
  intros [Hnd Hq].
  destruct (NoDup_split _ _ _ Hnd) as [H1 H2].
  assert (Hitem : 1 <= quantity item).
  { rewrite Forall_forall in Hq. apply Hq, in_or_app. right. now left. }
  induction n as [|n IH].
  - simpl Nat.iter. destruct (Z.ltb_spec (Z.of_nat 0) (quantity item)); [|lia].
    replace (quantity item - Z.of_nat 0) with (quantity item) by lia.
    now rewrite with_quantity_same.
  - rewrite Nat.iter_succ, IH.
    destruct (Z.ltb_spec (Z.of_nat n) (quantity item)).
    + rewrite (pressMinus_line (id item) l1 l2
                 (with_quantity item (quantity item - Z.of_nat n)))
        by (reflexivity || assumption).
      rewrite !quantity_with_quantity, with_quantity_twice.
      destruct (Z.leb_spec (quantity item - Z.of_nat n) 1);
        destruct (Z.ltb_spec (Z.of_nat (S n)) (quantity item)); try lia.
      * reflexivity.
      * do 3 f_equal. lia.
    + destruct (Z.ltb_spec (Z.of_nat (S n)) (quantity item)); [lia|].
      unfold pressMinus. rewrite find_absent; [reflexivity|].
      apply absent_app. now split.
Qed.

Lemma minus_presses_count_down_witness :
  Nat.iter 1 (pressMinus "a") example_cart =
    [ mkCartItem (example_product "a" 199.99%float) 1;
      mkCartItem (example_product "b" 49.99%float) 1 ] /\
  Nat.iter 2 (pressMinus "a") example_cart =
    [ mkCartItem (example_product "b" 49.99%float) 1 ].
Proof.
  assert (Hwf : WellFormed ([] ++ mkCartItem (example_product "a" 199.99%float) 2
                               :: [mkCartItem (example_product "b" 49.99%float) 1])).
  { split; simpl.
    - repeat constructor; simpl; intuition discriminate.
    - repeat constructor; simpl; lia. }
  split.
  - exact (minus_presses_count_down [] [mkCartItem (example_product "b" 49.99%float) 1]
             (mkCartItem (example_product "a" 199.99%float) 2) 1 Hwf).
  - exact (minus_presses_count_down [] [mkCartItem (example_product "b" 49.99%float) 1]
             (mkCartItem (example_product "a" 199.99%float) 2) 2 Hwf).
Defined.

(** X22.  The plus button of a line raises its quantity by 1 whatever
    the stock of the product (the drawer has no bound of the kind the
    detail page has), and a press on minus right after it restores the
    cart. *)
Theorem drawer_plus_ignores_stock (l1 l2 : Cart) (item : CartItem) :
  WellFormed (l1 ++ item :: l2) ->
  pressPlus (id item) (l1 ++ item :: l2) =
    l1 ++ with_quantity item (quantity item + 1) :: l2 /\
  pressMinus (id item) (pressPlus (id item) (l1 ++ item :: l2)) =
    l1 ++ item :: l2.
Proof.
  intros [Hnd Hq].
  destruct (NoDup_split _ _ _ Hnd) as [H1 H2].
  assert (Hitem : 1 <= quantity item).
  { rewrite Forall_forall in Hq. apply Hq, in_or_app. right. now left. }
  assert (Hplus : pressPlus (id item) (l1 ++ item :: l2) =
                  l1 ++ with_quantity item (quantity item + 1) :: l2).
  { unfold pressPlus. rewrite find_unique by (reflexivity || assumption).
    unfold CartDrawer.onPlusClick, updateQuantity.
    destruct (Z.leb_spec (quantity item + 1) 0); [lia|].
    rewrite map_app. simpl.
    rewrite (proj2 (has_id_true (id item) item) eq_refl).
    now rewrite !map_absent. }
  split; [exact Hplus|].
  rewrite Hplus.
  rewrite (pressMinus_line (id item) l1 l2 (with_quantity item (quantity item + 1)))
    by (reflexivity || assumption).
  rewrite !quantity_with_quantity, with_quantity_twice.
  destruct (Z.leb_spec (quantity item + 1) 1); [lia|].
  replace (quantity item + 1 - 1) with (quantity item) by lia.
  now rewrite with_quantity_same.
Qed.

Lemma drawer_plus_ignores_stock_witness :
  let full := mkCartItem (example_product "a" 199.99%float) 10 in
  pressPlus "a" [full] = [mkCartItem (example_product "a" 199.99%float) 11] /\
  stock full = 10.
Proof.
  intros full.
  assert (Hwf : WellFormed ([] ++ full :: [])).
  { split; simpl.
    - repeat constructor; simpl; intuition.
    - repeat constructor; simpl; lia. }
  split; [|reflexivity].
  exact (proj1 (drawer_plus_ignores_stock [] [] full Hwf)).
Defined.

End DrawerMore.
